(** * Blob service: access-control layer over a file-backed store

    A shallow embedding of [blob_service/src/models.py],
    [blob_service/src/persistence.py] and [blob_service/src/business.py],
    followed by the properties of the service that the specification states.

    Modelling decisions, all local to this file:
    - the storage directory is a pair of finite maps keyed by blob id: one
      for the [{id}.data] files and one for the [{id}.json] files.  Blob ids
      are plain file names (the service generates them with [uuid4]), so two
      different ids never name the same file;
    - a name with a null byte, or longer than the file system allows, names
      no file: [open] raises on it and [os.path.exists] answers [False];
    - [json.dump] of a [BlobMeta] followed by [json.load] and the [BlobMeta]
      constructor gives back the metadata that was written, so the [.json]
      map holds [BlobMeta] records;
    - persistence functions are state transformers on the storage; service
      methods are state transformers that either return or raise one of the
      two exceptions of [business.py];
    - [uuid.uuid4()] is an input of [create_blob];
    - [list(set(xs))] enumerates the distinct elements of [xs] in an order
      that Python leaves unspecified: it is a parameter ([SetOrder]). *)

From stdpp Require Import gmap strings list fin_maps.

Set Default Proof Using "Type".

(** ** models.py *)

Definition bytes := list Byte.byte.

Record BlobMeta := mkBlobMeta {
  id : string;
  name : string;
  owner : string;
  readable_by : list string;
  extra : gmap string string
}.

(** Attribute assignments [meta.name = v] and [meta.readable_by = v]. *)
Definition set_meta_name (meta : BlobMeta) (v : string) : BlobMeta :=
  mkBlobMeta (id meta) v (owner meta) (readable_by meta) (extra meta).

Definition set_meta_readable_by (meta : BlobMeta) (v : list string) : BlobMeta :=
  mkBlobMeta (id meta) (name meta) (owner meta) v (extra meta).

(** ** The storage directory *)

Record Storage := mkStorage {
  data_files : gmap string bytes;      (* {storage}/{blob_id}.data *)
  meta_files : gmap string BlobMeta    (* {storage}/{blob_id}.json *)
}.

Definition empty_storage : Storage := mkStorage ∅ ∅.

(** A computation that reads and writes the storage directory. *)
Definition IO (A : Type) : Type := Storage → A * Storage.

(** ** Exceptions *)

(** The two exceptions of [business.py], with the arguments they are
    constructed from, and the two built-in exceptions that [open] raises
    for a name the file system cannot hold: [ValueError] for an embedded
    null byte, [OSError] (ENAMETOOLONG) for a name over the limit. *)
Inductive Error :=
  | BlobNotFound (blob_id : string)
  | Forbidden (blob_id : string) (user : string)
  | ValueError
  | OSError.

Inductive Outcome (A : Type) :=
  | Returned (a : A)
  | Raised (e : Error).
Arguments Returned {A} a.
Arguments Raised {A} e.

(** A computation on the storage that returns or raises. *)
Definition Svc (A : Type) : Type := Storage → Outcome A * Storage.

Definition svc_ret {A} (a : A) : Svc A := λ s, (Returned a, s).

Definition svc_bind {A B} (c : Svc A) (k : A → Svc B) : Svc B := λ s,
  match c s with
  | (Returned a, s1) => k a s1
  | (Raised e, s1) => (Raised e, s1)
  end.

Definition raise {A} (e : Error) : Svc A := λ s, (Raised e, s).

(** A call that never raises. *)
Definition call {A} (c : IO A) : Svc A := λ s,
  let '(a, s1) := c s in (Returned a, s1).

Notation "'let*' x ':=' c 'in' k" := (svc_bind c (λ x, k))
  (at level 10, x name, c at level 100, k at level 200,
   format "'[v' 'let*'  x  ':='  c  'in' '/' k ']'").
Notation "c ';;' k" := (svc_bind c (λ _, k))
  (at level 100, k at level 200, right associativity).

(** ** File names *)

(** A file name is the byte string the operating system is handed, one
    byte per character of [string].  [NAME_MAX] is the longest name the
    file system holds, in bytes (255 on ext4, XFS, Btrfs, tmpfs, APFS). *)
Definition NAME_MAX : nat := 255.

Fixpoint has_nul (name : string) : bool :=
  match name with
  | EmptyString => false
  | String c name' => (Ascii.nat_of_ascii c =? 0) || has_nul name'
  end.

(** What [open(name)] raises before it looks for the file, if anything. *)
Definition open_error (name : string) : option Error :=
  if has_nul name then Some ValueError
  else if (NAME_MAX <? String.length name)%nat then Some OSError
  else None.

(** ** persistence.py *)

Module BlobPersistence.

Definition create (meta : BlobMeta) (content : bytes) : IO unit := λ s,
  let s1 := mkStorage (<[id meta := content]> (data_files s)) (meta_files s) in
  let s2 := mkStorage (data_files s1) (<[id meta := meta]> (meta_files s1)) in
  (tt, s2).

(** The file names of a blob inside the storage directory. *)
Definition _data (blob_id : string) : string := blob_id +:+ ".data".

Definition _meta (blob_id : string) : string := blob_id +:+ ".json".

(** [open(name, "r")] on a file that is not there: [FileNotFoundError],
    caught below and turned into [None], unless the name itself is
    refused, which raises an exception that nothing here catches.  A file
    that is there has a name the file system accepted, so the name is only
    examined when the lookup finds nothing. *)
Definition read_content (blob_id : string) : Svc (option bytes) := λ s,
  match data_files s !! blob_id with
  | Some content => (Returned (Some content), s)
  | None =>
      match open_error (_data blob_id) with
      | Some e => (Raised e, s)
      | None => (Returned None, s)
      end
  end.

Definition read_meta (blob_id : string) : Svc (option BlobMeta) := λ s,
  match meta_files s !! blob_id with
  | Some meta => (Returned (Some meta), s)
  | None =>
      match open_error (_meta blob_id) with
      | Some e => (Raised e, s)
      | None => (Returned None, s)
      end
  end.

Definition read_pair (blob_id : string) : Svc (option (BlobMeta * bytes)) :=
  let* meta := read_meta blob_id in
  match meta with
  | None => svc_ret None
  | Some meta =>
      let* content := read_content blob_id in
      match content with
      | None => svc_ret None
      | Some content => svc_ret (Some (meta, content))
      end
  end.

Definition update_content (blob_id : string) (new_content : bytes) : IO bool := λ s,
  match data_files s !! blob_id with
  | None => (false, s)
  | Some _ =>
      (true, mkStorage (<[blob_id := new_content]> (data_files s)) (meta_files s))
  end.

Definition update_meta (meta : BlobMeta) : IO bool := λ s,
  match meta_files s !! id meta with
  | None => (false, s)
  | Some _ =>
      (true, mkStorage (data_files s) (<[id meta := meta]> (meta_files s)))
  end.

(** [os.path.exists] answers [False] for a name the file system refuses,
    as it does for a file that is not there, so the three functions above
    and [exists] below see such a name as absent.

    [os.listdir] order is the file system's; here the map's. *)
Definition list_ids : IO (list string) := λ s,
  ((map_to_list (meta_files s)).*1, s).

Definition exists_ (blob_id : string) : IO bool := λ s,
  (bool_decide (is_Some (meta_files s !! blob_id))
     && bool_decide (is_Some (data_files s !! blob_id)), s).

Definition delete (blob_id : string) : IO bool := λ s,
  match data_files s !! blob_id, meta_files s !! blob_id with
  | Some _, Some _ =>
      let s1 := mkStorage (base.delete blob_id (data_files s)) (meta_files s) in
      let s2 := mkStorage (data_files s1) (base.delete blob_id (meta_files s1)) in
      (true, s2)
  | _, _ => (false, s)
  end.

End BlobPersistence.

(** The id names files that the file system can hold. *)
Definition usable_id (blob_id : string) : bool :=
  match open_error (BlobPersistence._meta blob_id),
        open_error (BlobPersistence._data blob_id) with
  | None, None => true
  | _, _ => false
  end.

(** What a method raises when it finds no file under [name]: the
    exception of [open] for a refused name, [BlobNotFound] otherwise. *)
Definition absent_error (name blob_id : string) : Error :=
  match open_error name with
  | Some e => e
  | None => BlobNotFound blob_id
  end.

(** ** business.py *)

(** Python's [list(set(xs))]: the distinct elements of [xs], in an order the
    language does not fix. *)
Class SetOrder := {
  list_set : list string → list string;
  list_set_NoDup : ∀ xs, NoDup (list_set xs);
  elem_of_list_set : ∀ xs x, x ∈ list_set xs ↔ x ∈ xs
}.

(** [l.remove(x)]: drops the first occurrence ([ValueError] when there is
    none; the service only calls it after an [in] test). *)
Fixpoint list_remove (x : string) (l : list string) : list string :=
  match l with
  | [] => []
  | y :: l => if decide (x = y) then l else y :: list_remove x l
  end.

(** [x or default] on an optional list or dict: [None] and the empty value
    are both falsy. *)
Definition or_list (x : option (list string)) : list string :=
  match x with Some (y :: l) => y :: l | _ => [] end.

Definition or_dict (x : option (gmap string string)) : gmap string string :=
  match x with Some d => d | None => ∅ end.

(** An entry of [list_blobs]: the dict with keys id, name, owner. *)
Record BlobEntry := mkBlobEntry {
  entry_id : string;
  entry_name : string;
  entry_owner : string
}.

Module BlobService.
Section methods.
Context `{SetOrder}.

Definition _check_access (user blob_id : string) (read owner_only : bool)
  : Svc BlobMeta :=
  let* meta := BlobPersistence.read_meta blob_id in
  match meta with
  | None => raise (BlobNotFound blob_id)
  | Some meta =>
      if owner_only && bool_decide (user ≠ owner meta)
      then raise (Forbidden blob_id user)
      else if read && bool_decide (user ∉ readable_by meta)
      then raise (Forbidden blob_id user)
      else svc_ret meta
  end.

(** [uuid4] is the string that [str(uuid.uuid4())] evaluates to. *)
Definition create_blob (uuid4 : string) (user name : string) (content : bytes)
    (readable_by : option (list string)) (extra : option (gmap string string))
  : Svc string :=
  let blob_id := uuid4 in
  let readers := list_set (or_list readable_by ++ [user]) in
  let meta := mkBlobMeta blob_id name user readers (or_dict extra) in
  call (BlobPersistence.create meta content);;
  svc_ret blob_id.

Definition update_blob (user blob_id : string) (new_content : bytes) : Svc unit :=
  let* meta := BlobPersistence.read_meta blob_id in
  match meta with
  | None => raise (BlobNotFound blob_id)
  | Some meta =>
      if bool_decide (user ≠ owner meta)
      then raise (Forbidden blob_id user)
      else
        let* ok := call (BlobPersistence.update_content blob_id new_content) in
        if negb ok then raise (BlobNotFound blob_id) else svc_ret tt
  end.

Definition read_blob (user blob_id : string) : Svc bytes :=
  let* meta := _check_access user blob_id true false in
  let* data := BlobPersistence.read_content blob_id in
  match data with
  | None => raise (BlobNotFound blob_id)
  | Some data => svc_ret data
  end.

Definition delete_blob (user blob_id : string) : Svc unit :=
  let* meta := _check_access user blob_id false true in
  let* ok := call (BlobPersistence.delete blob_id) in
  if negb ok then raise (BlobNotFound blob_id) else svc_ret tt.

(** The loop of [list_blobs] over the ids still to visit. *)
Fixpoint list_blobs_loop (user : string) (ids : list string)
    (result : list BlobEntry) : Svc (list BlobEntry) :=
  match ids with
  | [] => svc_ret result
  | blob_id :: ids =>
      let* meta := BlobPersistence.read_meta blob_id in
      match meta with
      | Some meta =>
          if bool_decide (user ∈ readable_by meta)
          then list_blobs_loop user ids
                 (result ++ [mkBlobEntry (id meta) (name meta) (owner meta)])
          else list_blobs_loop user ids result
      | None => list_blobs_loop user ids result
      end
  end.

Definition list_blobs (user : string) : Svc (list BlobEntry) :=
  let* ids := call BlobPersistence.list_ids in
  list_blobs_loop user ids [].

(** [if new_name:] holds for a string that is neither [None] nor empty. *)
Definition modify_blob (user blob_id : string) (new_name : option string)
  : Svc unit :=
  let* meta := _check_access user blob_id false true in
  match new_name with
  | Some (String c n) =>
      let meta := set_meta_name meta (String c n) in
      call (BlobPersistence.update_meta meta);;
      svc_ret tt
  | _ => svc_ret tt
  end.

Definition replace_blob (user blob_id : string) (new_content : bytes) : Svc unit :=
  _check_access user blob_id false true;;
  let* ok := call (BlobPersistence.update_content blob_id new_content) in
  if negb ok then raise (BlobNotFound blob_id) else svc_ret tt.

(** [new_list.append(user)] also changes the caller's list object; the
    storage never holds that object, only its JSON copy, so here the
    argument is a value. *)
Definition set_readable_by (user blob_id : string) (new_list : list string)
  : Svc unit :=
  let* meta := _check_access user blob_id false true in
  let new_list :=
    if bool_decide (user ∉ new_list) then new_list ++ [user] else new_list in
  let meta := set_meta_readable_by meta (list_set new_list) in
  call (BlobPersistence.update_meta meta);;
  svc_ret tt.

Definition get_meta (user blob_id : string) : Svc BlobMeta :=
  _check_access user blob_id true false.

Definition get_readable_by (user blob_id : string) : Svc (list string) :=
  let* meta := _check_access user blob_id true false in
  svc_ret (readable_by meta).

Definition set_name (user blob_id new_name : string) : Svc unit :=
  let* meta := _check_access user blob_id false true in
  let meta := set_meta_name meta new_name in
  call (BlobPersistence.update_meta meta);;
  svc_ret tt.

Definition add_reader (user blob_id target_user : string) : Svc unit :=
  let* meta := _check_access user blob_id false true in
  if bool_decide (target_user ∉ readable_by meta)
  then
    let meta := set_meta_readable_by meta (readable_by meta ++ [target_user]) in
    call (BlobPersistence.update_meta meta);;
    svc_ret tt
  else svc_ret tt.

Definition remove_reader (user blob_id target_user : string) : Svc unit :=
  let* meta := _check_access user blob_id false true in
  if bool_decide (target_user ∈ readable_by meta)
       && bool_decide (target_user ≠ owner meta)
  then
    let meta :=
      set_meta_readable_by meta (list_remove target_user (readable_by meta)) in
    call (BlobPersistence.update_meta meta);;
    svc_ret tt
  else svc_ret tt.

End methods.
End BlobService.

(** One enumeration of a set, used to run the service on concrete inputs. *)
#[export] Instance remove_dups_order : SetOrder :=
  {| list_set := remove_dups;
     list_set_NoDup := NoDup_remove_dups;
     elem_of_list_set := elem_of_remove_dups |}.

(** ** The service as a whole *)

(** A request to the service: one constructor per public method, with the
    arguments of the call. *)
Inductive Request :=
  | CreateBlob (uuid4 user name : string) (content : bytes)
      (readable_by : option (list string)) (extra : option (gmap string string))
  | UpdateBlob (user blob_id : string) (new_content : bytes)
  | ReadBlob (user blob_id : string)
  | DeleteBlob (user blob_id : string)
  | ListBlobs (user : string)
  | ModifyBlob (user blob_id : string) (new_name : option string)
  | ReplaceBlob (user blob_id : string) (new_content : bytes)
  | SetReadableBy (user blob_id : string) (new_list : list string)
  | GetMeta (user blob_id : string)
  | GetReadableBy (user blob_id : string)
  | SetName (user blob_id new_name : string)
  | AddReader (user blob_id target_user : string)
  | RemoveReader (user blob_id target_user : string).

(** What a method returns. *)
Inductive Reply :=
  | RNone
  | RId (blob_id : string)
  | RBytes (data : bytes)
  | RMeta (meta : BlobMeta)
  | RReaders (readers : list string)
  | REntries (entries : list BlobEntry).

Definition reply {A} (f : A → Reply) (c : Svc A) : Svc Reply :=
  let* a := c in svc_ret (f a).

Definition handle `{SetOrder} (req : Request) : Svc Reply :=
  match req with
  | CreateBlob uuid4 user name content readable_by extra =>
      reply RId (BlobService.create_blob uuid4 user name content readable_by extra)
  | UpdateBlob user blob_id new_content =>
      reply (λ _, RNone) (BlobService.update_blob user blob_id new_content)
  | ReadBlob user blob_id =>
      reply RBytes (BlobService.read_blob user blob_id)
  | DeleteBlob user blob_id =>
      reply (λ _, RNone) (BlobService.delete_blob user blob_id)
  | ListBlobs user =>
      reply REntries (BlobService.list_blobs user)
  | ModifyBlob user blob_id new_name =>
      reply (λ _, RNone) (BlobService.modify_blob user blob_id new_name)
  | ReplaceBlob user blob_id new_content =>
      reply (λ _, RNone) (BlobService.replace_blob user blob_id new_content)
  | SetReadableBy user blob_id new_list =>
      reply (λ _, RNone) (BlobService.set_readable_by user blob_id new_list)
  | GetMeta user blob_id =>
      reply RMeta (BlobService.get_meta user blob_id)
  | GetReadableBy user blob_id =>
      reply RReaders (BlobService.get_readable_by user blob_id)
  | SetName user blob_id new_name =>
      reply (λ _, RNone) (BlobService.set_name user blob_id new_name)
  | AddReader user blob_id target_user =>
      reply (λ _, RNone) (BlobService.add_reader user blob_id target_user)
  | RemoveReader user blob_id target_user =>
      reply (λ _, RNone) (BlobService.remove_reader user blob_id target_user)
  end.

(** The blob id a request names; [create_blob] and [list_blobs] name none. *)
Definition target (req : Request) : option string :=
  match req with
  | CreateBlob _ _ _ _ _ _ | ListBlobs _ => None
  | UpdateBlob _ blob_id _ | ReadBlob _ blob_id | DeleteBlob _ blob_id
  | ModifyBlob _ blob_id _ | ReplaceBlob _ blob_id _
  | SetReadableBy _ blob_id _ | GetMeta _ blob_id | GetReadableBy _ blob_id
  | SetName _ blob_id _ | AddReader _ blob_id _ | RemoveReader _ blob_id _ =>
      Some blob_id
  end.

(** Storage after a sequence of requests, whatever each one's outcome. *)
Definition serve `{SetOrder} (reqs : list Request) (s : Storage) : Storage :=
  foldl (λ s req, (handle req s).2) s reqs.

(** Was the call an error of the given kind? *)
Definition is_not_found {A} (o : Outcome A) : bool :=
  match o with Raised (BlobNotFound _) => true | _ => false end.

Definition is_forbidden {A} (o : Outcome A) : bool :=
  match o with Raised (Forbidden _ _) => true | _ => false end.

(** ** Invariants of the storage *)

(** Every stored object lists its owner among its readers. *)
Definition owner_reads (s : Storage) : Prop :=
  map_Forall (λ _ meta, owner meta ∈ readable_by meta) (meta_files s).

#[export] Instance owner_reads_dec s : Decision (owner_reads s).
Proof. unfold owner_reads. apply _. Defined.

(** Every metadata file records the id it is stored under. *)
Definition ids_match (s : Storage) : Prop :=
  map_Forall (λ blob_id meta, id meta = blob_id) (meta_files s).

#[export] Instance ids_match_dec s : Decision (ids_match s).
Proof. unfold ids_match. apply _. Defined.

(** Metadata and content are present together. *)
Definition complete (s : Storage) : Prop :=
  ∀ blob_id, is_Some (meta_files s !! blob_id) ↔ is_Some (data_files s !! blob_id).

(** What one request may do to the storage. *)
Inductive effect (s : Storage) : Storage → Prop :=
  | eff_none : effect s s
  | eff_create meta content :
      owner meta ∈ readable_by meta →
      effect s (mkStorage (<[id meta := content]> (data_files s))
                          (<[id meta := meta]> (meta_files s)))
  | eff_content blob_id content :
      is_Some (data_files s !! blob_id) →
      effect s (mkStorage (<[blob_id := content]> (data_files s)) (meta_files s))
  | eff_meta blob_id meta meta' :
      meta_files s !! blob_id = Some meta →
      is_Some (meta_files s !! id meta') →
      id meta' = id meta →
      owner meta' = owner meta →
      (owner meta ∈ readable_by meta → owner meta' ∈ readable_by meta') →
      effect s (mkStorage (data_files s) (<[id meta' := meta']> (meta_files s)))
  | eff_delete blob_id :
      effect s (mkStorage (base.delete blob_id (data_files s))
                          (base.delete blob_id (meta_files s))).

(** Every file in the directory has a name the file system can hold. *)
Definition names_usable (s : Storage) : Prop :=
  map_Forall (λ blob_id _, usable_id blob_id = true) (meta_files s) ∧
  map_Forall (λ blob_id _, usable_id blob_id = true) (data_files s).

#[export] Instance names_usable_dec s : Decision (names_usable s).
Proof. unfold names_usable. apply _. Defined.

(** Every stored reader list is free of duplicates. *)
Definition readers_nodup (s : Storage) : Prop :=
  map_Forall (λ _ meta, NoDup (readable_by meta)) (meta_files s).

#[export] Instance readers_nodup_dec s : Decision (readers_nodup s).
Proof. unfold readers_nodup. apply _. Defined.

(** The user argument of a request. *)
Definition req_user (req : Request) : string :=
  match req with
  | CreateBlob _ user _ _ _ _ | UpdateBlob user _ _ | ReadBlob user _
  | DeleteBlob user _ | ListBlobs user | ModifyBlob user _ _
  | ReplaceBlob user _ _ | SetReadableBy user _ _ | GetMeta user _
  | GetReadableBy user _ | SetName user _ _ | AddReader user _ _
  | RemoveReader user _ _ => user
  end.

(** The methods that test [user != meta.owner]: [update_blob] itself, the
    others through [_check_access(owner_only=True)]. *)
Definition owner_only (req : Request) : bool :=
  match req with
  | UpdateBlob _ _ _ | DeleteBlob _ _ | ModifyBlob _ _ _ | ReplaceBlob _ _ _
  | SetReadableBy _ _ _ | SetName _ _ _ | AddReader _ _ _ | RemoveReader _ _ _ =>
      true
  | _ => false
  end.

(** The id whose files a request may write: the generated id for
    [create_blob], the named id for the others. *)
Definition written_id (req : Request) : option string :=
  match req with
  | CreateBlob uuid4 _ _ _ _ _ => Some uuid4
  | _ => target req
  end.

Definition is_create (req : Request) : bool :=
  match req with CreateBlob _ _ _ _ _ _ => true | _ => false end.

(** The id generated for a [create_blob] request is one the file system
    can hold, as the text of a UUID is. *)
Definition generates_usable_id (req : Request) : bool :=
  match req with
  | CreateBlob uuid4 _ _ _ _ _ => usable_id uuid4
  | _ => true
  end.

(** What a request that names [blob_id] may do to the storage. *)
Inductive touch (s : Storage) (blob_id : string) : Storage → Prop :=
  | touch_none : touch s blob_id s
  | touch_content meta content :
      meta_files s !! blob_id = Some meta →
      is_Some (data_files s !! blob_id) →
      touch s blob_id
        (mkStorage (<[blob_id := content]> (data_files s)) (meta_files s))
  | touch_meta meta meta' :
      meta_files s !! blob_id = Some meta →
      id meta' = id meta →
      owner meta' = owner meta →
      extra meta' = extra meta →
      (NoDup (readable_by meta) → NoDup (readable_by meta')) →
      touch s blob_id (BlobPersistence.update_meta meta' s).2
  | touch_delete :
      is_Some (meta_files s !! blob_id) →
      is_Some (data_files s !! blob_id) →
      touch s blob_id
        (mkStorage (base.delete blob_id (data_files s))
                   (base.delete blob_id (meta_files s))).

(** ** auth_mock.py *)

(** Header values reach [resolve_user] decoded as Latin-1, so a header is a
    string of code points below 256, one per character of [string]. *)

Record HTTPException := mkHTTPException {
  status_code : nat;
  detail : string
}.

(** [ch.isspace()] on code points below 256: TAB to CR, FS to US, space,
    NEL and the no-break space. *)
Definition isspace (c : Ascii.ascii) : bool :=
  let n := Ascii.nat_of_ascii c in
  ((9 <=? n) && (n <=? 13)) || ((28 <=? n) && (n <=? 32))
  || (n =? 133) || (n =? 160).

Fixpoint lstrip (s : string) : string :=
  match s with
  | EmptyString => EmptyString
  | String c s' => if isspace c then lstrip s' else s
  end.

Fixpoint rstrip (s : string) : string :=
  match s with
  | EmptyString => EmptyString
  | String c s' =>
      match rstrip s' with
      | EmptyString => if isspace c then EmptyString else String c EmptyString
      | r => String c r
      end
  end.

(** [s.strip()] *)
Definition strip (s : string) : string := rstrip (lstrip s).

(** [" " in s] *)
Fixpoint has_space (s : string) : bool :=
  match s with
  | EmptyString => false
  | String c s' => (Ascii.nat_of_ascii c =? 32) || has_space s'
  end.

(** [auth_token or x_user or ""]: [None] and the empty string are falsy. *)
Definition first_truthy (auth_token x_user : option string) : string :=
  match auth_token with
  | Some (String c s) => String c s
  | _ => match x_user with
         | Some (String c s) => String c s
         | _ => EmptyString
         end
  end.

Definition resolve_user (auth_token x_user : option string)
  : string + HTTPException :=
  let user := strip (first_truthy auth_token x_user) in
  match user with
  | EmptyString =>
      inr (mkHTTPException 401 "Unauthorized: missing user header"%string)
  | _ =>
      if has_space user || (64 <? String.length user)
      then inr (mkHTTPException 400 "Invalid username format"%string)
      else inl user
  end.

Definition get_current_user (AuthToken X_User : option string)
  : string + HTTPException :=
  resolve_user AuthToken X_User.

(** ** api.py *)

(** The handlers run on the storage of the module-level service.  A
    handler returns its JSON body or raises an [HTTPException].  The text
    of a form field has been through [json.loads] when it reaches the
    model.  In [api_create_blob], whose [except Exception] answers every
    failure alike, [None] stands for text that does not parse or does not
    parse to a list and [Some l] for a JSON list of strings;
    [api_set_readable_by] tells the failures apart ([JsonList]). *)
Inductive Response (A : Type) :=
  | Body (body : A)
  | HTTPError (e : HTTPException).
Arguments Body {A} body.
Arguments HTTPError {A} e.

Definition Handler (A : Type) : Type := Storage → Response A * Storage.

(** The [except BlobNotFound] and [except Forbidden] clauses shared by the
    handlers, with the detail texts of each.  Any other exception leaves
    the handler and the framework answers 500. *)
Definition internal_server_error : HTTPException :=
  mkHTTPException 500 "Internal Server Error"%string.

Definition http_errors {A} (not_found forbidden : string) (c : Svc A)
  : Handler A := λ s,
  match c s with
  | (Returned a, s1) => (Body a, s1)
  | (Raised (BlobNotFound _), s1) =>
      (HTTPError (mkHTTPException 404 not_found), s1)
  | (Raised (Forbidden _ _), s1) =>
      (HTTPError (mkHTTPException 403 forbidden), s1)
  | (Raised ValueError, s1) | (Raised OSError, s1) =>
      (HTTPError internal_server_error, s1)
  end.

Record CreatedBody := mkCreatedBody {
  created_blob_id : string;
  created_owner : string;
  created_readable_by : list string
}.

(** [PUT /blob].  [readable_by] is [None] when the form field is absent or
    empty. *)
Definition api_create_blob `{SetOrder} (uuid4 name : string)
    (readable_by : option (option (list string))) (file : bytes) (user : string)
  : Handler CreatedBody := λ s,
  let raw := file in
  match readable_by with
  | Some None =>
      (HTTPError (mkHTTPException 400
         "El parámetro 'readable_by' debe ser una lista JSON válida."%string), s)
  | _ =>
      let readers := match readable_by with Some (Some l) => l | _ => [] end in
      match BlobService.create_blob uuid4 user name raw (Some readers) None s with
      | (Returned blob_id, s1) => (Body (mkCreatedBody blob_id user readers), s1)
      | (Raised _, s1) =>
          (* no except clause here: an exception would leave the handler *)
          (HTTPError internal_server_error, s1)
      end
  end.

Record UpdatedBody := mkUpdatedBody {
  updated : string;
  updated_readable_by : list string
}.

(** The list object [readers] after [BlobService.set_readable_by] has
    returned: the service appends the user to the list it was handed when
    the user is not in it, and the handler answers with that same list. *)
Definition readers_after_call (user : string) (readers : list string)
  : list string :=
  if bool_decide (user ∉ readers) then readers ++ [user] else readers.

(** What [json.loads] does with the text of the form field, followed by
    the [isinstance] test: a list of strings; [ValueError], raised by the
    parser for text that is not JSON and by the handler for JSON that is
    not a list; or [RecursionError] for text nested too deep. *)
Inductive JsonList :=
  | LoadsList (readers : list string)
  | LoadsValueError
  | LoadsRecursionError.

(** [PUT /blob/{blob_id}/readable_by].  The call of the service is inside
    the [try], so a [ValueError] that it raises is answered by the
    [except ValueError] clause as well. *)
Definition api_set_readable_by `{SetOrder} (blob_id : string)
    (readable_by : JsonList) (user : string)
  : Handler UpdatedBody := λ s,
  let bad_request := mkHTTPException 400
    "El campo readable_by debe ser una lista JSON válida"%string in
  match readable_by with
  | LoadsValueError => (HTTPError bad_request, s)
  | LoadsRecursionError => (HTTPError internal_server_error, s)
  | LoadsList readers =>
      match BlobService.set_readable_by user blob_id readers s with
      | (Returned _, s1) =>
          (Body (mkUpdatedBody blob_id (readers_after_call user readers)), s1)
      | (Raised ValueError, s1) => (HTTPError bad_request, s1)
      | (Raised (BlobNotFound _), s1) =>
          (HTTPError (mkHTTPException 404 "Blob no encontrado"%string), s1)
      | (Raised (Forbidden _ _), s1) =>
          (HTTPError (mkHTTPException 403 "Acceso denegado"%string), s1)
      | (Raised OSError, s1) => (HTTPError internal_server_error, s1)
      end
  end.

(** [DELETE /blob/{blob_id}/readable_by].  The target comes from the query
    string or, when that is absent or empty, from the key target_user of
    the JSON body; [if not target_user] holds for [None] and for the empty
    string. *)
Definition api_remove_reader (blob_id : string) (target_user : option string)
    (user : string) (body : option (gmap string string))
  : Handler string := λ s,
  let target_user :=
    match target_user with
    | Some (String c t) => Some (String c t)
    | _ => match body with
           | Some body =>
               if bool_decide (body = ∅) then target_user
               else match body !! "target_user"%string with
                    | Some v => Some v
                    | None => target_user
                    end
           | None => target_user
           end
    end in
  match target_user with
  | Some (String c t) =>
      http_errors "Not Found"%string "Forbidden"%string
        (svc_bind (BlobService.remove_reader user blob_id (String c t))
           (λ _, svc_ret (String c t)))
        s
  | _ => (HTTPError (mkHTTPException 400 "target_user requerido"%string), s)
  end.

(** ** Concrete storages *)

Local Open Scope string_scope.
Local Open Scope list_scope.

Definition hello : bytes :=
  [Byte.x68; Byte.x65; Byte.x6c; Byte.x6c; Byte.x6f].

(** The storage after alice creates one blob with readers=[]. *)
Definition alice_storage : Storage :=
  (BlobService.create_blob "id1" "alice" "demo.txt" hello (Some []) None
     empty_storage).2.

Definition alice_meta : BlobMeta :=
  mkBlobMeta "id1" "demo.txt" "alice" ["alice"] ∅.

(** The same storage after alice has added bob as a reader. *)
Definition alice_bob_meta : BlobMeta :=
  mkBlobMeta "id1" "demo.txt" "alice" ["alice"; "bob"] ∅.

Definition alice_bob_storage : Storage :=
  (BlobService.add_reader "alice" "id1" "bob" alice_storage).2.

(** A metadata file whose content file is gone. *)
Definition orphan_meta_storage : Storage :=
  mkStorage ∅ {[ "id1" := alice_meta ]}.

(** The id that [GET /blob/%00] hands to the service: one null byte. *)
Definition nul_id : string := String Ascii.zero EmptyString.

(** * Properties *)

(** ** The persistence layer *)

Lemma usable_id_meta blob_id :
  usable_id blob_id = true → open_error (BlobPersistence._meta blob_id) = None.
Proof.
  unfold usable_id. by destruct (open_error (BlobPersistence._meta blob_id)).
Qed.

Lemma usable_id_data blob_id :
  usable_id blob_id = true → open_error (BlobPersistence._data blob_id) = None.
Proof.
  unfold usable_id.
  destruct (open_error (BlobPersistence._meta blob_id)); [done|].
  by destruct (open_error (BlobPersistence._data blob_id)).
Qed.

Lemma absent_error_usable_meta blob_id :
  usable_id blob_id = true →
  absent_error (BlobPersistence._meta blob_id) blob_id = BlobNotFound blob_id.
Proof. intros Hu. unfold absent_error. by rewrite usable_id_meta. Qed.


Lemma read_meta_present blob_id meta s :
  meta_files s !! blob_id = Some meta →
  BlobPersistence.read_meta blob_id s = (Returned (Some meta), s).
Proof. intros Hm. unfold BlobPersistence.read_meta. by rewrite Hm. Qed.

Lemma read_content_present blob_id content s :
  data_files s !! blob_id = Some content →
  BlobPersistence.read_content blob_id s = (Returned (Some content), s).
Proof. intros Hd. unfold BlobPersistence.read_content. by rewrite Hd. Qed.

Lemma read_meta_absent blob_id s :
  meta_files s !! blob_id = None →
  usable_id blob_id = true →
  BlobPersistence.read_meta blob_id s = (Returned None, s).
Proof.
  intros Hm Hu. unfold BlobPersistence.read_meta.
  by rewrite Hm, usable_id_meta.
Qed.

Lemma read_content_absent blob_id s :
  data_files s !! blob_id = None →
  usable_id blob_id = true →
  BlobPersistence.read_content blob_id s = (Returned None, s).
Proof.
  intros Hd Hu. unfold BlobPersistence.read_content.
  by rewrite Hd, usable_id_data.
Qed.

Lemma read_meta_state blob_id s : (BlobPersistence.read_meta blob_id s).2 = s.
Proof.
  unfold BlobPersistence.read_meta.
  destruct (meta_files s !! blob_id); [done|]. by destruct (open_error _).
Qed.

Lemma read_content_state blob_id s :
  (BlobPersistence.read_content blob_id s).2 = s.
Proof.
  unfold BlobPersistence.read_content.
  destruct (data_files s !! blob_id); [done|]. by destruct (open_error _).
Qed.

(** The service reads metadata and raises [BlobNotFound] when there is
    none. *)
Lemma read_meta_or_raise {A} blob_id (k : BlobMeta → Svc A) s :
  svc_bind (BlobPersistence.read_meta blob_id)
    (λ meta, match meta with
             | None => raise (BlobNotFound blob_id)
             | Some meta => k meta
             end) s =
  match meta_files s !! blob_id with
  | Some meta => k meta s
  | None =>
      (Raised (absent_error (BlobPersistence._meta blob_id) blob_id), s)
  end.
Proof.
  unfold svc_bind, BlobPersistence.read_meta, absent_error, raise.
  destruct (meta_files s !! blob_id) as [meta|]; [done|].
  by destruct (open_error _).
Qed.

Lemma read_content_or_raise {A} blob_id (k : bytes → Svc A) s :
  svc_bind (BlobPersistence.read_content blob_id)
    (λ data, match data with
             | None => raise (BlobNotFound blob_id)
             | Some data => k data
             end) s =
  match data_files s !! blob_id with
  | Some data => k data s
  | None =>
      (Raised (absent_error (BlobPersistence._data blob_id) blob_id), s)
  end.
Proof.
  unfold svc_bind, BlobPersistence.read_content, absent_error, raise.
  destruct (data_files s !! blob_id) as [data|]; [done|].
  by destruct (open_error _).
Qed.

Lemma update_meta_effect blob_id meta meta' s :
  meta_files s !! blob_id = Some meta →
  id meta' = id meta →
  owner meta' = owner meta →
  (owner meta ∈ readable_by meta → owner meta' ∈ readable_by meta') →
  effect s (BlobPersistence.update_meta meta' s).2.
Proof.
  intros Hm Hid Ho Hr. unfold BlobPersistence.update_meta.
  destruct (meta_files s !! id meta') as [old|] eqn:E; simpl.
  - eapply eff_meta; [exact Hm | by rewrite E | done..].
  - constructor.
Qed.

Lemma update_content_effect blob_id content s :
  effect s (BlobPersistence.update_content blob_id content s).2.
Proof.
  unfold BlobPersistence.update_content.
  destruct (data_files s !! blob_id) eqn:E; simpl.
  - apply eff_content. by rewrite E.
  - constructor.
Qed.

Lemma delete_effect blob_id s :
  effect s (BlobPersistence.delete blob_id s).2.
Proof.
  unfold BlobPersistence.delete.
  destruct (data_files s !! blob_id), (meta_files s !! blob_id); simpl;
    constructor.
Qed.

Lemma delete_true blob_id s s' :
  BlobPersistence.delete blob_id s = (true, s') →
  is_Some (data_files s !! blob_id) ∧ is_Some (meta_files s !! blob_id) ∧
  s' = mkStorage (base.delete blob_id (data_files s))
                 (base.delete blob_id (meta_files s)).
Proof.
  unfold BlobPersistence.delete.
  destruct (data_files s !! blob_id), (meta_files s !! blob_id); simpl;
    intros [= <-]; eauto.
Qed.

(** ** The permission check *)

Section service.
Context `{SetOrder}.

Lemma check_access_run user blob_id read owner_only s :
  BlobService._check_access user blob_id read owner_only s =
  match meta_files s !! blob_id with
  | None =>
      (Raised (absent_error (BlobPersistence._meta blob_id) blob_id), s)
  | Some meta =>
      if owner_only && bool_decide (user ≠ owner meta)
      then (Raised (Forbidden blob_id user), s)
      else if read && bool_decide (user ∉ readable_by meta)
      then (Raised (Forbidden blob_id user), s)
      else (Returned meta, s)
  end.
Proof.
  unfold BlobService._check_access. rewrite read_meta_or_raise.
  destruct (meta_files s !! blob_id) as [meta|]; [|done].
  unfold raise, svc_ret.
  destruct owner_only, read; simpl; repeat case_bool_decide; done.
Qed.

Lemma check_access_absent user blob_id read owner_only s :
  meta_files s !! blob_id = None →
  usable_id blob_id = true →
  BlobService._check_access user blob_id read owner_only s
  = (Raised (BlobNotFound blob_id), s).
Proof.
  intros E Hu. by rewrite check_access_run, E, absent_error_usable_meta.
Qed.

Lemma check_access_owner user blob_id meta s :
  meta_files s !! blob_id = Some meta →
  user = owner meta →
  BlobService._check_access user blob_id false true s = (Returned meta, s).
Proof.
  intros E ->. rewrite check_access_run, E.
  rewrite bool_decide_eq_false_2 by auto. done.
Qed.

Lemma check_access_not_owner user blob_id meta s :
  meta_files s !! blob_id = Some meta →
  user ≠ owner meta →
  BlobService._check_access user blob_id false true s
  = (Raised (Forbidden blob_id user), s).
Proof.
  intros E Hne. rewrite check_access_run, E.
  by rewrite bool_decide_eq_true_2.
Qed.

Lemma check_access_reader user blob_id meta s :
  meta_files s !! blob_id = Some meta →
  user ∈ readable_by meta →
  BlobService._check_access user blob_id true false s = (Returned meta, s).
Proof.
  intros E Hin. rewrite check_access_run, E. simpl.
  rewrite bool_decide_eq_false_2; [done|]. by intros ?.
Qed.

Lemma bind_check_absent {A} user blob_id read owner_only (k : BlobMeta → Svc A) s :
  meta_files s !! blob_id = None →
  svc_bind (BlobService._check_access user blob_id read owner_only) k s
  = (Raised (absent_error (BlobPersistence._meta blob_id) blob_id), s).
Proof. intros E. unfold svc_bind. by rewrite check_access_run, E. Qed.

(** A passed check returns the stored metadata and leaves the storage as
    it was. *)
Lemma check_access_returned user blob_id read owner_only s meta s' :
  BlobService._check_access user blob_id read owner_only s = (Returned meta, s') →
  s' = s ∧ meta_files s !! blob_id = Some meta.
Proof.
  rewrite check_access_run.
  destruct (meta_files s !! blob_id) as [m|]; [|done].
  destruct owner_only, read; simpl; repeat case_bool_decide;
    by intros [= -> ->].
Qed.

Lemma check_access_state user blob_id read owner_only s :
  (BlobService._check_access user blob_id read owner_only s).2 = s.
Proof.
  rewrite check_access_run.
  destruct (meta_files s !! blob_id) as [m|]; [|done].
  destruct owner_only, read; simpl; repeat case_bool_decide; done.
Qed.

End service.

(** ** What each method does to the storage *)

Section effects.
Context `{SetOrder}.

(** Unfolds a method down to the check and the persistence calls. *)
Ltac run_method :=
  unfold svc_bind, call, svc_ret, raise; simpl.

Lemma list_blobs_loop_state user ids result s :
  (BlobService.list_blobs_loop user ids result s).2 = s.
Proof.
  revert result. induction ids as [|blob_id ids IH]; intros result; [done|].
  simpl. unfold svc_bind at 1. unfold BlobPersistence.read_meta.
  destruct (meta_files s !! blob_id) as [meta|].
  - case_bool_decide; apply IH.
  - destruct (open_error _); [done|apply IH].
Qed.

Lemma list_blobs_state user s : (BlobService.list_blobs user s).2 = s.
Proof.
  unfold BlobService.list_blobs. run_method. apply list_blobs_loop_state.
Qed.

Lemma create_blob_run uuid4 user name content readable_by extra s :
  BlobService.create_blob uuid4 user name content readable_by extra s =
  (Returned uuid4,
   let meta := mkBlobMeta uuid4 name user
                 (list_set (or_list readable_by ++ [user])) (or_dict extra) in
   mkStorage (<[uuid4 := content]> (data_files s)) (<[uuid4 := meta]> (meta_files s))).
Proof. reflexivity. Qed.

(** After the ownership check, a method that rewrites the metadata. *)
Lemma owner_update_effect user blob_id (f : BlobMeta → BlobMeta) s :
  (∀ meta, id (f meta) = id meta) →
  (∀ meta, owner (f meta) = owner meta) →
  (∀ meta, user = owner meta → owner meta ∈ readable_by meta →
           owner meta ∈ readable_by (f meta)) →
  effect s
    (svc_bind (BlobService._check_access user blob_id false true)
       (λ meta, svc_bind (call (BlobPersistence.update_meta (f meta)))
                  (λ _, svc_ret tt)) s).2.
Proof.
  intros Hid Ho Hr. unfold svc_bind at 1. rewrite check_access_run.
  destruct (meta_files s !! blob_id) as [meta|] eqn:E; [|constructor].
  simpl. case_bool_decide as Hu; simpl; [constructor|].
  assert (owner meta ∈ readable_by meta → owner (f meta) ∈ readable_by (f meta))
    as Hr' by (rewrite Ho; auto).
  pose proof (update_meta_effect blob_id meta (f meta) s E (Hid _) (Ho _) Hr') as He.
  run_method. by destruct (BlobPersistence.update_meta (f meta) s).
Qed.

Lemma elem_of_list_remove_ne x y l :
  x ≠ y → y ∈ l → y ∈ list_remove x l.
Proof.
  intros Hne. induction l as [|z l IH]; [done|]. simpl.
  intros [->|Hy]%elem_of_cons.
  - rewrite decide_False by done. left.
  - case_decide; [done|]. right. auto.
Qed.

Lemma list_remove_absent x l : x ∉ l → list_remove x l = l.
Proof.
  induction l as [|z l IH]; [done|]. simpl.
  intros [Hne Hl]%not_elem_of_cons.
  rewrite decide_False by done. by rewrite IH.
Qed.

Lemma update_blob_effect user blob_id new_content s :
  effect s (BlobService.update_blob user blob_id new_content s).2.
Proof.
  unfold BlobService.update_blob. rewrite read_meta_or_raise.
  destruct (meta_files s !! blob_id) as [meta|]; [|constructor].
  case_bool_decide; [constructor|]. run_method.
  pose proof (update_content_effect blob_id new_content s) as He.
  by destruct (BlobPersistence.update_content blob_id new_content s) as [[] ?].
Qed.

Lemma replace_blob_effect user blob_id new_content s :
  effect s (BlobService.replace_blob user blob_id new_content s).2.
Proof.
  unfold BlobService.replace_blob, svc_bind at 1.
  pose proof (check_access_state user blob_id false true s) as Hs.
  destruct (BlobService._check_access user blob_id false true s) as [[meta|e] s0];
    simpl in Hs; subst s0; [|constructor].
  run_method.
  pose proof (update_content_effect blob_id new_content s) as He.
  by destruct (BlobPersistence.update_content blob_id new_content s) as [[] ?].
Qed.

Lemma read_blob_state user blob_id s :
  (BlobService.read_blob user blob_id s).2 = s.
Proof.
  unfold BlobService.read_blob, svc_bind at 1.
  pose proof (check_access_state user blob_id true false s) as Hs.
  destruct (BlobService._check_access user blob_id true false s) as [[meta|e] s0];
    simpl in Hs; subst s0; [|done].
  rewrite read_content_or_raise. by destruct (data_files s !! blob_id).
Qed.

Lemma delete_blob_effect user blob_id s :
  effect s (BlobService.delete_blob user blob_id s).2.
Proof.
  unfold BlobService.delete_blob, svc_bind at 1.
  pose proof (check_access_state user blob_id false true s) as Hs.
  destruct (BlobService._check_access user blob_id false true s) as [[meta|e] s0];
    simpl in Hs; subst s0; [|constructor].
  run_method.
  pose proof (delete_effect blob_id s) as He.
  by destruct (BlobPersistence.delete blob_id s) as [[] ?].
Qed.

Lemma modify_blob_effect user blob_id new_name s :
  effect s (BlobService.modify_blob user blob_id new_name s).2.
Proof.
  destruct new_name as [[|c n]|].
  - unfold BlobService.modify_blob, svc_bind.
    rewrite (surjective_pairing (BlobService._check_access _ _ _ _ _)).
    rewrite check_access_state.
    destruct (BlobService._check_access _ _ _ _ _).1; constructor.
  - apply (owner_update_effect user blob_id (λ meta, set_meta_name meta (String c n)));
      done.
  - unfold BlobService.modify_blob, svc_bind.
    rewrite (surjective_pairing (BlobService._check_access _ _ _ _ _)).
    rewrite check_access_state.
    destruct (BlobService._check_access _ _ _ _ _).1; constructor.
Qed.

Lemma set_name_effect user blob_id new_name s :
  effect s (BlobService.set_name user blob_id new_name s).2.
Proof.
  apply (owner_update_effect user blob_id (λ meta, set_meta_name meta new_name));
    done.
Qed.

Lemma set_readable_by_effect user blob_id new_list s :
  effect s (BlobService.set_readable_by user blob_id new_list s).2.
Proof.
  apply (owner_update_effect user blob_id
           (λ meta, set_meta_readable_by meta
              (list_set (if bool_decide (user ∉ new_list)
                         then new_list ++ [user] else new_list)))); [done..|].
  intros meta <- _. simpl. apply elem_of_list_set.
  case_bool_decide as Hin.
  - apply elem_of_app. right. left.
  - done.
Qed.

End effects.

Section handle_effects.
Context `{SetOrder}.

Lemma add_reader_effect user blob_id target_user s :
  effect s (BlobService.add_reader user blob_id target_user s).2.
Proof.
  unfold BlobService.add_reader, svc_bind at 1. rewrite check_access_run.
  destruct (meta_files s !! blob_id) as [meta|] eqn:E; [|constructor].
  simpl. case_bool_decide as Hu; simpl; [constructor|].
  case_bool_decide as Hin; [|constructor].
  unfold svc_bind, call, svc_ret.
  pose proof (update_meta_effect blob_id meta
    (set_meta_readable_by meta (readable_by meta ++ [target_user])) s E
    eq_refl eq_refl) as He.
  destruct (BlobPersistence.update_meta _ s). apply He.
  simpl. intros Ho. apply elem_of_app. by left.
Qed.

Lemma remove_reader_effect user blob_id target_user s :
  effect s (BlobService.remove_reader user blob_id target_user s).2.
Proof.
  unfold BlobService.remove_reader, svc_bind at 1. rewrite check_access_run.
  destruct (meta_files s !! blob_id) as [meta|] eqn:E; [|constructor].
  simpl. case_bool_decide as Hu; simpl; [constructor|].
  case_bool_decide as Hin; simpl; [|constructor].
  case_bool_decide as Hne; simpl; [|constructor].
  unfold svc_bind, call, svc_ret.
  pose proof (update_meta_effect blob_id meta
    (set_meta_readable_by meta (list_remove target_user (readable_by meta))) s E
    eq_refl eq_refl) as He.
  destruct (BlobPersistence.update_meta _ s). apply He.
  simpl. by apply elem_of_list_remove_ne.
Qed.

Lemma create_blob_effect uuid4 user name content readable_by extra s :
  effect s (BlobService.create_blob uuid4 user name content readable_by extra s).2.
Proof.
  rewrite create_blob_run. simpl.
  apply (eff_create s (mkBlobMeta uuid4 name user _ _) content). simpl.
  apply elem_of_list_set, elem_of_app. right. left.
Qed.

Lemma reply_state {A} (f : A → Reply) (c : Svc A) s : (reply f c s).2 = (c s).2.
Proof. unfold reply, svc_bind, svc_ret. by destruct (c s) as [[a|e] s1]. Qed.

Lemma reply_outcome {A} (f : A → Reply) (c : Svc A) s :
  (reply f c s).1 = match (c s).1 with
                    | Returned a => Returned (f a)
                    | Raised e => Raised e
                    end.
Proof. unfold reply, svc_bind, svc_ret. by destruct (c s) as [[a|e] s1]. Qed.

Lemma handle_effect req s : effect s (handle req s).2.
Proof.
  destruct req; cbn [handle]; rewrite reply_state.
  - apply create_blob_effect.
  - apply update_blob_effect.
  - rewrite read_blob_state. constructor.
  - apply delete_blob_effect.
  - rewrite list_blobs_state. constructor.
  - apply modify_blob_effect.
  - apply replace_blob_effect.
  - apply set_readable_by_effect.
  - unfold BlobService.get_meta. rewrite check_access_state. constructor.
  - unfold BlobService.get_readable_by, svc_bind, svc_ret.
    rewrite (surjective_pairing (BlobService._check_access _ _ _ _ _)).
    rewrite check_access_state.
    destruct (BlobService._check_access _ _ _ _ _).1; constructor.
  - apply set_name_effect.
  - apply add_reader_effect.
  - apply remove_reader_effect.
Qed.

End handle_effects.

(** ** The invariants hold after every request *)

Lemma effect_owner_reads s s' : effect s s' → owner_reads s → owner_reads s'.
Proof.
  intros He Hinv. destruct He as [|meta content Ho|? ? ?|bid meta meta' Hm ? ? Ho Hr|bid];
    intros k m; simpl; try apply Hinv.
  - intros [[<- <-]|[_ Hk]]%lookup_insert_Some; [done|]. by eapply Hinv.
  - intros [[<- <-]|[_ Hk]]%lookup_insert_Some; [|by eapply Hinv].
    apply Hr. by eapply Hinv.
  - intros [_ Hk]%lookup_delete_Some. by eapply Hinv.
Qed.

Lemma effect_ids_match s s' : effect s s' → ids_match s → ids_match s'.
Proof.
  intros He Hinv. destruct He as [|meta content Ho|? ? ?|bid meta meta' Hm ? ? Ho Hr|bid];
    intros k m; simpl; try apply Hinv.
  - intros [[<- <-]|[_ Hk]]%lookup_insert_Some; [done|]. by eapply Hinv.
  - intros [[<- <-]|[_ Hk]]%lookup_insert_Some; [done|]. by eapply Hinv.
  - intros [_ Hk]%lookup_delete_Some. by eapply Hinv.
Qed.

Lemma effect_complete s s' : effect s s' → complete s → complete s'.
Proof.
  intros He Hinv. destruct He as [|meta content Ho|bid ? Hd|bid meta meta' Hm Hs ? Ho Hr|bid];
    intros k; simpl; try apply Hinv.
  - destruct (decide (id meta = k)) as [<-|Hne].
    + rewrite !lookup_insert_eq. split; eauto.
    + rewrite !lookup_insert_ne by done. apply Hinv.
  - destruct (decide (bid = k)) as [<-|Hne].
    + rewrite lookup_insert_eq. split; [eauto|]. intros _. by apply Hinv.
    + rewrite lookup_insert_ne by done. apply Hinv.
  - destruct (decide (id meta' = k)) as [<-|Hne].
    + rewrite lookup_insert_eq. split; [|eauto]. intros _. by apply Hinv.
    + rewrite lookup_insert_ne by done. apply Hinv.
  - destruct (decide (bid = k)) as [<-|Hne].
    + rewrite !lookup_delete_eq. split; intros []; done.
    + rewrite !lookup_delete_ne by done. apply Hinv.
Qed.

Lemma handle_owner_reads `{SetOrder} req s :
  owner_reads s → owner_reads (handle req s).2.
Proof. apply effect_owner_reads, handle_effect. Qed.

Lemma handle_ids_match `{SetOrder} req s :
  ids_match s → ids_match (handle req s).2.
Proof. apply effect_ids_match, handle_effect. Qed.

Lemma handle_complete `{SetOrder} req s :
  complete s → complete (handle req s).2.
Proof. apply effect_complete, handle_effect. Qed.

(** Whatever the service has been asked since the directory was created,
    the three invariants hold. *)
Lemma serve_invariants `{SetOrder} reqs :
  let s := serve reqs empty_storage in
  owner_reads s ∧ ids_match s ∧ complete s.
Proof.
  simpl. unfold serve.
  assert (owner_reads empty_storage ∧ ids_match empty_storage
          ∧ complete empty_storage) as H0.
  { repeat split; try (intros k m; simpl; by rewrite lookup_empty).
    all: simpl; rewrite lookup_empty; by intros []. }
  revert H0. generalize empty_storage as s.
  induction reqs as [|req reqs IH]; intros s (H1 & H2 & H3); [done|].
  simpl. apply IH. split_and!.
  - by apply handle_owner_reads.
  - by apply handle_ids_match.
  - by apply handle_complete.
Qed.

(** ** Claims *)

(** C1. For every stored object the owner is among the readers after any
    service request that completes successfully, given that this held
    before the request: [create_blob] stores a reader list that contains
    the owner, [set_readable_by] puts the owner back into the replacement
    list, and no other method takes the owner out of [readable_by]. *)
Theorem owner_in_readers_after_success `{SetOrder} req s r s' :
  owner_reads s →
  handle req s = (Returned r, s') →
  owner_reads s'.
Proof.
  intros Hinv Hrun. pose proof (handle_owner_reads req s Hinv) as Hs'.
  by rewrite Hrun in Hs'.
Qed.

Lemma owner_in_readers_after_success_witness :
  owner_reads alice_storage ∧
  handle (SetReadableBy "alice" "id1" ["bob"]) alice_storage
    = (Returned RNone,
       (handle (SetReadableBy "alice" "id1" ["bob"]) alice_storage).2) ∧
  owner_reads (handle (SetReadableBy "alice" "id1" ["bob"]) alice_storage).2.
Proof.
  assert (owner_reads alice_storage) as Hinv
    by (apply (bool_decide_unpack _); vm_compute; exact I).
  split; [exact Hinv|]. split; [reflexivity|].
  apply (owner_in_readers_after_success
           (SetReadableBy "alice" "id1" ["bob"]) alice_storage RNone);
    [exact Hinv | reflexivity].
Defined.

(** A request that names an id without metadata stops at the lookup of
    the metadata. *)
Lemma handle_absent `{SetOrder} req blob_id s :
  target req = Some blob_id →
  meta_files s !! blob_id = None →
  handle req s
  = (Raised (absent_error (BlobPersistence._meta blob_id) blob_id), s).
Proof.
  intros Ht Hm.
  destruct req; cbn [target] in Ht; simplify_eq; cbn [handle];
    unfold reply; unfold svc_bind at 1.
  - unfold BlobService.update_blob. by rewrite read_meta_or_raise, Hm.
  - unfold BlobService.read_blob. by rewrite bind_check_absent.
  - unfold BlobService.delete_blob. by rewrite bind_check_absent.
  - unfold BlobService.modify_blob. by rewrite bind_check_absent.
  - unfold BlobService.replace_blob. by rewrite bind_check_absent.
  - unfold BlobService.set_readable_by. by rewrite bind_check_absent.
  - unfold BlobService.get_meta. by rewrite check_access_run, Hm.
  - unfold BlobService.get_readable_by. by rewrite bind_check_absent.
  - unfold BlobService.set_name. by rewrite bind_check_absent.
  - unfold BlobService.add_reader. by rewrite bind_check_absent.
  - unfold BlobService.remove_reader. by rewrite bind_check_absent.
Qed.

(** For an id the file system can hold, that is [BlobNotFound]: the
    existence check comes before any permission check. *)
Lemma handle_absent_meta `{SetOrder} req blob_id s :
  target req = Some blob_id →
  meta_files s !! blob_id = None →
  usable_id blob_id = true →
  handle req s = (Raised (BlobNotFound blob_id), s).
Proof.
  intros Ht Hm Hu.
  by rewrite (handle_absent req blob_id s Ht Hm), absent_error_usable_meta.
Qed.

Lemma has_nul_append a b : has_nul (a +:+ b) = has_nul a || has_nul b.
Proof.
  induction a as [|c a IH]; [done|]. simpl. by rewrite IH, orb_assoc.
Qed.

Lemma open_error_nul blob_id suffix :
  has_nul blob_id = true → open_error (blob_id +:+ suffix) = Some ValueError.
Proof.
  intros Hn. unfold open_error. by rewrite has_nul_append, Hn.
Qed.

(** C2 fails on the code for an id with a null byte.  The metadata of such
    an id is absent, yet no request that names it raises [BlobNotFound]:
    [open] raises [ValueError], [read_meta] catches [FileNotFoundError]
    only, and the exception leaves the service, whoever the user is.  (For
    every id the file system can hold the claim holds: see
    [handle_absent_meta].) *)
Theorem null_byte_id_raises_value_error `{SetOrder} req blob_id s :
  target req = Some blob_id →
  meta_files s !! blob_id = None →
  has_nul blob_id = true →
  handle req s = (Raised ValueError, s) ∧
  is_not_found (handle req s).1 = false.
Proof.
  intros Ht Hm Hn. rewrite (handle_absent req blob_id s Ht Hm).
  unfold absent_error, BlobPersistence._meta.
  by rewrite (open_error_nul blob_id ".json" Hn).
Qed.

Lemma null_byte_id_raises_value_error_witness :
  target (GetMeta "alice" nul_id) = Some nul_id ∧
  meta_files empty_storage !! nul_id = None ∧
  has_nul nul_id = true ∧
  handle (GetMeta "alice" nul_id) empty_storage
    = (Raised ValueError, empty_storage) ∧
  is_not_found (handle (GetMeta "alice" nul_id) empty_storage).1 = false.
Proof.
  split; [reflexivity|]. split; [reflexivity|]. split; [reflexivity|].
  apply (null_byte_id_raises_value_error (GetMeta "alice" nul_id) nul_id
           empty_storage); reflexivity.
Defined.




Lemma update_meta_run meta s :
  BlobPersistence.update_meta meta s =
  if bool_decide (is_Some (meta_files s !! id meta))
  then (true, mkStorage (data_files s) (<[id meta := meta]> (meta_files s)))
  else (false, s).
Proof.
  unfold BlobPersistence.update_meta.
  destruct (meta_files s !! id meta) eqn:E.
  - by rewrite bool_decide_eq_true_2.
  - rewrite bool_decide_eq_false_2; [done|]. by intros [].
Qed.

Lemma set_readable_by_run `{SetOrder} user blob_id new_list s meta :
  meta_files s !! blob_id = Some meta →
  user = owner meta →
  BlobService.set_readable_by user blob_id new_list s =
  (Returned tt,
   (BlobPersistence.update_meta
      (set_meta_readable_by meta
         (list_set (if bool_decide (user ∉ new_list)
                    then new_list ++ [user] else new_list))) s).2).
Proof.
  intros Hm Hu. unfold BlobService.set_readable_by, svc_bind at 1.
  rewrite (check_access_owner user blob_id meta s Hm Hu).
  unfold svc_bind, call, svc_ret.
  by destruct (BlobPersistence.update_meta _ s).
Qed.

Lemma add_reader_run user blob_id target_user s meta :
  meta_files s !! blob_id = Some meta →
  user = owner meta →
  BlobService.add_reader user blob_id target_user s =
  (Returned tt,
   if bool_decide (target_user ∉ readable_by meta)
   then (BlobPersistence.update_meta
           (set_meta_readable_by meta (readable_by meta ++ [target_user])) s).2
   else s).
Proof.
  intros Hm Hu. unfold BlobService.add_reader, svc_bind at 1.
  rewrite (check_access_owner user blob_id meta s Hm Hu).
  case_bool_decide; [|done].
  unfold svc_bind, call, svc_ret.
  by destruct (BlobPersistence.update_meta _ s).
Qed.

Lemma remove_reader_run user blob_id target_user s meta :
  meta_files s !! blob_id = Some meta →
  user = owner meta →
  BlobService.remove_reader user blob_id target_user s =
  (Returned tt,
   if bool_decide (target_user ∈ readable_by meta)
        && bool_decide (target_user ≠ owner meta)
   then (BlobPersistence.update_meta
           (set_meta_readable_by meta
              (list_remove target_user (readable_by meta))) s).2
   else s).
Proof.
  intros Hm Hu. unfold BlobService.remove_reader, svc_bind at 1.
  rewrite (check_access_owner user blob_id meta s Hm Hu).
  destruct (_ && _); [|done].
  unfold svc_bind, call, svc_ret.
  by destruct (BlobPersistence.update_meta _ s).
Qed.

(** C4. When the owner replaces the reader list of an existing object (its
    metadata is stored under its own id), [set_readable_by] succeeds, and
    the metadata then stored under the id has a [readable_by] that is free
    of duplicates and holds exactly the elements of the supplied list
    together with the owner, so the owner stays a reader; its id, name,
    owner and extra are as before, and so are the content files and the
    metadata of every other id. *)
Theorem set_readable_by_stores_union `{SetOrder} user blob_id new_list s meta :
  meta_files s !! blob_id = Some meta →
  id meta = blob_id →
  user = owner meta →
  ∃ s' meta',
    BlobService.set_readable_by user blob_id new_list s = (Returned tt, s') ∧
    meta_files s' !! blob_id = Some meta' ∧
    NoDup (readable_by meta') ∧
    list_to_set (readable_by meta')
      =@{gset string} list_to_set new_list ∪ {[owner meta]} ∧
    owner meta ∈ readable_by meta' ∧
    id meta' = id meta ∧ name meta' = name meta ∧
    owner meta' = owner meta ∧ extra meta' = extra meta ∧
    data_files s' = data_files s ∧
    ∀ other, other ≠ blob_id → meta_files s' !! other = meta_files s !! other.
Proof.
  intros Hm Hid Hu.
  set (l := if bool_decide (user ∉ new_list) then new_list ++ [user] else new_list).
  assert (∀ x, x ∈ list_set l ↔ x ∈ new_list ∨ x = owner meta) as Hl.
  { intros x. rewrite elem_of_list_set. unfold l. case_bool_decide as Hin.
    - rewrite elem_of_app, list_elem_of_singleton. by subst user.
    - split; [by left|]. by intros [?| ->]; [|subst user]. }
  rewrite (set_readable_by_run user blob_id new_list s meta Hm Hu).
  rewrite update_meta_run. simpl. rewrite Hid, Hm.
  rewrite bool_decide_eq_true_2 by eauto. simpl.
  eexists _, (set_meta_readable_by meta (list_set l)).
  split; [reflexivity|]. simpl. rewrite lookup_insert_eq.
  split_and!; try done.
  - apply list_set_NoDup.
  - apply set_eq. intros x.
    rewrite elem_of_union, !elem_of_list_to_set, elem_of_singleton. apply Hl.
  - apply Hl. by right.
  - intros other Hne. by rewrite lookup_insert_ne.
Qed.

(** The scenario of the specification: alice replaces the reader list of
    her blob by ["bob"]; the stored readers are alice and bob. *)
Lemma set_readable_by_stores_union_witness :
  meta_files alice_storage !! "id1" = Some alice_meta ∧
  id alice_meta = "id1" ∧
  "alice" = owner alice_meta ∧
  ∃ s' meta',
    BlobService.set_readable_by "alice" "id1" ["bob"] alice_storage
    = (Returned tt, s') ∧
    meta_files s' !! "id1" = Some meta' ∧
    NoDup (readable_by meta') ∧
    list_to_set (readable_by meta')
      =@{gset string} list_to_set ["bob"] ∪ {["alice"]} ∧
    "alice" ∈ readable_by meta' ∧
    id meta' = "id1" ∧ name meta' = "demo.txt" ∧
    owner meta' = "alice" ∧ extra meta' = ∅ ∧
    data_files s' = data_files alice_storage ∧
    ∀ other, other ≠ "id1" →
      meta_files s' !! other = meta_files alice_storage !! other.
Proof.
  split; [reflexivity|]. split; [reflexivity|]. split; [reflexivity|].
  apply (set_readable_by_stores_union "alice" "id1" ["bob"] alice_storage
           alice_meta); reflexivity.
Defined.

(** C5. For an existing object, [remove_reader] called by the owner with
    the owner as target, or with a target that is not in the reader list,
    succeeds and leaves the storage, hence the reader list, as it was. *)
Theorem remove_reader_noop user blob_id target_user s meta :
  meta_files s !! blob_id = Some meta →
  user = owner meta →
  target_user = owner meta ∨ target_user ∉ readable_by meta →
  BlobService.remove_reader user blob_id target_user s = (Returned tt, s).
Proof.
  intros Hm Hu Ht.
  rewrite (remove_reader_run user blob_id target_user s meta Hm Hu).
  destruct Ht as [->|Hout].
  - rewrite (bool_decide_eq_false_2 (owner meta ≠ owner meta)) by auto.
    by rewrite andb_false_r.
  - by rewrite (bool_decide_eq_false_2 _ Hout).
Qed.

Lemma remove_reader_noop_witness :
  meta_files alice_storage !! "id1" = Some alice_meta ∧
  "alice" = owner alice_meta ∧
  ("alice" = owner alice_meta ∨ "alice" ∉ readable_by alice_meta) ∧
  BlobService.remove_reader "alice" "id1" "alice" alice_storage
    = (Returned tt, alice_storage).
Proof.
  split; [reflexivity|]. split; [reflexivity|]. split; [left; reflexivity|].
  apply (remove_reader_noop "alice" "id1" "alice" alice_storage alice_meta);
    [reflexivity | reflexivity | left; reflexivity].
Defined.

(** C6. For an existing object and its owner, [add_reader] succeeds; a
    second call with the same target succeeds and leaves the storage
    exactly as the first call left it; when the target is already a reader
    the first call changes nothing.  When the metadata is stored under its
    own id, the readers after the call are the old ones and the target. *)
Theorem add_reader_idempotent user blob_id target_user s meta :
  meta_files s !! blob_id = Some meta →
  user = owner meta →
  ∃ s1,
    BlobService.add_reader user blob_id target_user s = (Returned tt, s1) ∧
    BlobService.add_reader user blob_id target_user s1 = (Returned tt, s1) ∧
    (target_user ∈ readable_by meta → s1 = s) ∧
    (id meta = blob_id →
     ∃ meta1, meta_files s1 !! blob_id = Some meta1 ∧
       ∀ x, x ∈ readable_by meta1 ↔ x ∈ readable_by meta ∨ x = target_user).
Proof.
  intros Hm Hu.
  rewrite (add_reader_run user blob_id target_user s meta Hm Hu).
  eexists. split; [reflexivity|].
  case_bool_decide as Hin.
  - (* the target is new *)
    set (meta' := set_meta_readable_by meta (readable_by meta ++ [target_user])).
    rewrite update_meta_run. case_bool_decide as Hfile; simpl.
    + split_and!.
      * destruct (decide (id meta = blob_id)) as [Hid|Hid].
        -- erewrite add_reader_run; [|simpl; rewrite Hid; apply lookup_insert_eq|done].
           rewrite bool_decide_eq_false_2; [done|].
           intros Hout. apply Hout. simpl. apply elem_of_app. right. left.
        -- erewrite add_reader_run;
             [|simpl; rewrite lookup_insert_ne by done; exact Hm|done].
           rewrite bool_decide_eq_true_2 by done.
           rewrite update_meta_run. simpl.
           rewrite lookup_insert_eq, bool_decide_eq_true_2 by eauto.
           simpl. by rewrite insert_insert_eq.
      * done.
      * intros <-. exists meta'. rewrite lookup_insert_eq. split; [done|].
        intros x. simpl. rewrite elem_of_app, list_elem_of_singleton. done.
    + split_and!.
      * rewrite (add_reader_run user blob_id target_user s meta Hm Hu).
        rewrite bool_decide_eq_true_2 by done.
        rewrite update_meta_run. by rewrite bool_decide_eq_false_2.
      * done.
      * intros Hid. destruct Hfile. simpl. rewrite Hid, Hm. eauto.
  - (* the target is already a reader *)
    split_and!.
    + rewrite (add_reader_run user blob_id target_user s meta Hm Hu).
      by rewrite bool_decide_eq_false_2 by auto.
    + done.
    + intros _. exists meta. split; [done|]. intros x. split; [by left|].
      by intros [?| ->].
Qed.

Lemma add_reader_idempotent_witness :
  meta_files alice_storage !! "id1" = Some alice_meta ∧
  "alice" = owner alice_meta ∧
  ∃ s1,
    BlobService.add_reader "alice" "id1" "bob" alice_storage = (Returned tt, s1) ∧
    BlobService.add_reader "alice" "id1" "bob" s1 = (Returned tt, s1) ∧
    ("bob" ∈ readable_by alice_meta → s1 = alice_storage) ∧
    (id alice_meta = "id1" →
     ∃ meta1, meta_files s1 !! "id1" = Some meta1 ∧
       ∀ x, x ∈ readable_by meta1 ↔ x ∈ readable_by alice_meta ∨ x = "bob").
Proof.
  split; [reflexivity|]. split; [reflexivity|].
  apply (add_reader_idempotent "alice" "id1" "bob" alice_storage alice_meta);
    reflexivity.
Defined.

(** C7. Round trip: [create_blob] by owner o with name n and content c
    returns the generated id; on the storage it leaves, [read_blob] by o on
    that id returns exactly c, and [get_meta] by o returns metadata with
    name n and owner o (and o among the readers). *)
Theorem create_then_read `{SetOrder} uuid4 o n c readers extra s :
  ∃ s' meta,
    BlobService.create_blob uuid4 o n c readers extra s = (Returned uuid4, s') ∧
    BlobService.read_blob o uuid4 s' = (Returned c, s') ∧
    BlobService.get_meta o uuid4 s' = (Returned meta, s') ∧
    name meta = n ∧ owner meta = o ∧ o ∈ readable_by meta.
Proof.
  rewrite create_blob_run. simpl.
  set (meta := mkBlobMeta uuid4 n o (list_set (or_list readers ++ [o])) (or_dict extra)).
  set (s' := mkStorage _ _).
  assert (meta_files s' !! uuid4 = Some meta) as Hm by apply lookup_insert_eq.
  assert (o ∈ readable_by meta) as Hin.
  { simpl. apply elem_of_list_set, elem_of_app. right. left. }
  exists s', meta. split_and!; try done.
  - unfold BlobService.read_blob, svc_bind at 1.
    rewrite (check_access_reader o uuid4 meta s' Hm Hin).
    rewrite read_content_or_raise. simpl. by rewrite lookup_insert_eq.
  - unfold BlobService.get_meta.
    apply (check_access_reader o uuid4 meta s' Hm Hin).
Qed.

Lemma create_then_read_witness :
  ∃ s' meta,
    BlobService.create_blob "id1" "alice" "demo.txt" hello (Some ["alice"]) None
      empty_storage = (Returned "id1", s') ∧
    BlobService.read_blob "alice" "id1" s' = (Returned hello, s') ∧
    BlobService.get_meta "alice" "id1" s' = (Returned meta, s') ∧
    name meta = "demo.txt" ∧ owner meta = "alice" ∧ "alice" ∈ readable_by meta.
Proof.
  apply (create_then_read "id1" "alice" "demo.txt" hello (Some ["alice"]) None
           empty_storage).
Defined.

(** C8. For an existing object and a user who is not its owner,
    [update_blob] and [replace_blob] both fail with [Forbidden] and leave
    the storage, hence the stored content, as it was: the permission check
    comes before any write. *)
Theorem update_by_non_owner_forbidden user blob_id new_content s meta :
  meta_files s !! blob_id = Some meta →
  user ≠ owner meta →
  BlobService.update_blob user blob_id new_content s
    = (Raised (Forbidden blob_id user), s) ∧
  BlobService.replace_blob user blob_id new_content s
    = (Raised (Forbidden blob_id user), s) ∧
  data_files (BlobService.update_blob user blob_id new_content s).2 !! blob_id
    = data_files s !! blob_id ∧
  data_files (BlobService.replace_blob user blob_id new_content s).2 !! blob_id
    = data_files s !! blob_id.
Proof.
  intros Hm Hne.
  assert (BlobService.update_blob user blob_id new_content s
          = (Raised (Forbidden blob_id user), s)) as Hu.
  { unfold BlobService.update_blob. rewrite read_meta_or_raise, Hm.
    by rewrite bool_decide_eq_true_2. }
  assert (BlobService.replace_blob user blob_id new_content s
          = (Raised (Forbidden blob_id user), s)) as Hr.
  { unfold BlobService.replace_blob, svc_bind at 1.
    by rewrite (check_access_not_owner user blob_id meta s Hm Hne). }
  by rewrite Hu, Hr.
Qed.

Lemma update_by_non_owner_forbidden_witness :
  meta_files alice_storage !! "id1" = Some alice_meta ∧
  "bob" ≠ owner alice_meta ∧
  BlobService.update_blob "bob" "id1" [Byte.x78] alice_storage
    = (Raised (Forbidden "id1" "bob"), alice_storage) ∧
  BlobService.replace_blob "bob" "id1" [Byte.x78] alice_storage
    = (Raised (Forbidden "id1" "bob"), alice_storage) ∧
  data_files (BlobService.update_blob "bob" "id1" [Byte.x78] alice_storage).2 !! "id1"
    = data_files alice_storage !! "id1" ∧
  data_files (BlobService.replace_blob "bob" "id1" [Byte.x78] alice_storage).2 !! "id1"
    = data_files alice_storage !! "id1".
Proof.
  split; [reflexivity|]. split; [discriminate|].
  apply (update_by_non_owner_forbidden "bob" "id1" [Byte.x78] alice_storage
           alice_meta); [reflexivity | discriminate].
Defined.

(** C9. In a directory whose files have names the file system can hold:
    after a successful [delete_blob] on an id, both records of the id are
    gone and every later request that names the id (read, update, delete,
    and the others) fails with [BlobNotFound], for any user.  In the
    persistence layer, a successful [delete] removes both records, and a
    second [delete] of the same id returns [False] and changes nothing. *)
Theorem delete_then_not_found `{SetOrder} blob_id :
  (∀ user s s',
     names_usable s →
     BlobService.delete_blob user blob_id s = (Returned tt, s') →
     meta_files s' !! blob_id = None ∧ data_files s' !! blob_id = None ∧
     ∀ req, target req = Some blob_id →
            handle req s' = (Raised (BlobNotFound blob_id), s')) ∧
  (∀ s s',
     names_usable s →
     BlobPersistence.delete blob_id s = (true, s') →
     BlobPersistence.read_meta blob_id s' = (Returned None, s') ∧
     BlobPersistence.read_content blob_id s' = (Returned None, s') ∧
     BlobPersistence.delete blob_id s' = (false, s')).
Proof.
  assert (∀ s s', names_usable s →
            BlobPersistence.delete blob_id s = (true, s') →
            usable_id blob_id = true ∧
            meta_files s' !! blob_id = None ∧ data_files s' !! blob_id = None)
    as Hgone.
  { intros s s' [Hnames _] (_ & [meta Hm] & ->)%delete_true. simpl.
    rewrite !lookup_delete_eq. split_and!; [|done..].
    by apply (Hnames blob_id meta). }
  split.
  - intros user s s' Hnames Hrun.
    assert (BlobPersistence.delete blob_id s = (true, s')) as Hdel.
    { revert Hrun. unfold BlobService.delete_blob, svc_bind at 1.
      pose proof (check_access_state user blob_id false true s) as Hs.
      destruct (BlobService._check_access user blob_id false true s)
        as [[meta|e] s0]; simpl in Hs; subst s0; [|done].
      unfold svc_bind, call, svc_ret, raise.
      destruct (BlobPersistence.delete blob_id s) as [[] s1]; simpl; [|done].
      by intros [= ->]. }
    destruct (Hgone s s' Hnames Hdel) as (Hu & Hm & Hd).
    split_and!; [done..|].
    intros req Ht. by apply handle_absent_meta.
  - intros s s' Hnames Hdel. destruct (Hgone s s' Hnames Hdel) as (Hu & Hm & Hd).
    rewrite (read_meta_absent blob_id s' Hm Hu).
    rewrite (read_content_absent blob_id s' Hd Hu). split_and!; [done..|].
    unfold BlobPersistence.delete. by rewrite Hd.
Qed.

Lemma delete_then_not_found_witness :
  names_usable alice_storage ∧
  BlobService.delete_blob "alice" "id1" alice_storage = (Returned tt, empty_storage) ∧
  BlobPersistence.delete "id1" alice_storage = (true, empty_storage) ∧
  handle (ReadBlob "alice" "id1") empty_storage
    = (Raised (BlobNotFound "id1"), empty_storage) ∧
  handle (UpdateBlob "alice" "id1" hello) empty_storage
    = (Raised (BlobNotFound "id1"), empty_storage) ∧
  handle (DeleteBlob "alice" "id1") empty_storage
    = (Raised (BlobNotFound "id1"), empty_storage) ∧
  BlobPersistence.delete "id1" empty_storage = (false, empty_storage).
Proof.
  assert (names_usable alice_storage) as Hnames
    by (apply (bool_decide_unpack _); vm_compute; exact I).
  assert (BlobService.delete_blob "alice" "id1" alice_storage
          = (Returned tt, empty_storage)) as Hsvc by (vm_compute; reflexivity).
  assert (BlobPersistence.delete "id1" alice_storage = (true, empty_storage))
    as Hdel by (vm_compute; reflexivity).
  destruct (delete_then_not_found "id1") as [Hservice Hstore].
  destruct (Hservice "alice" alice_storage empty_storage Hnames Hsvc)
    as (_ & _ & Hreq).
  destruct (Hstore alice_storage empty_storage Hnames Hdel) as (_ & _ & Hagain).
  split; [exact Hnames|]. split; [exact Hsvc|]. split; [exact Hdel|].
  split; [apply (Hreq (ReadBlob "alice" "id1")); reflexivity|].
  split; [apply (Hreq (UpdateBlob "alice" "id1" hello)); reflexivity|].
  split; [apply (Hreq (DeleteBlob "alice" "id1")); reflexivity|].
  exact Hagain.
Defined.

(** C10. [update_blob] and [replace_blob] are the same operation: for every
    user, id, content and storage they give the same outcome (return, or
    the same exception) and the same resulting storage. *)
Theorem update_blob_replace_blob user blob_id new_content s :
  BlobService.update_blob user blob_id new_content s
  = BlobService.replace_blob user blob_id new_content s.
Proof.
  unfold BlobService.replace_blob, svc_bind at 1. rewrite check_access_run.
  unfold BlobService.update_blob. rewrite read_meta_or_raise.
  destruct (meta_files s !! blob_id) as [meta|]; [|done]. simpl.
  by case_bool_decide.
Qed.

(** ** The reader scenario of the specification *)

(** alice creates a blob with readers=[]; bob is refused; alice adds bob,
    who can then read; alice removes bob, who is refused again. *)
Example reader_scenario :
  let s1 := alice_storage in
  let s2 := (BlobService.add_reader "alice" "id1" "bob" s1).2 in
  let s3 := (BlobService.remove_reader "alice" "id1" "bob" s2).2 in
  (BlobService.get_readable_by "alice" "id1" s1).1 = Returned ["alice"] ∧
  (BlobService.read_blob "bob" "id1" s1).1 = Raised (Forbidden "id1" "bob") ∧
  (BlobService.read_blob "bob" "id1" s2).1 = Returned hello ∧
  (BlobService.read_blob "bob" "id1" s3).1 = Raised (Forbidden "id1" "bob") ∧
  s3 = s1.
Proof. vm_compute. repeat split. Qed.

(** * Further properties of the code *)

(** ** persistence.py *)

(** X1. [create] then read: after [create(meta, content)] the pair stored
    under [meta.id] is exactly what was written, [exists] holds, whatever
    was stored there before is replaced, and reading the metadata or the
    content of any other id gives what it gave before. *)
Theorem create_read_pair meta content s :
  let s' := (BlobPersistence.create meta content s).2 in
  BlobPersistence.read_pair (id meta) s' = (Returned (Some (meta, content)), s') ∧
  BlobPersistence.exists_ (id meta) s' = (true, s') ∧
  ∀ other, other ≠ id meta →
    meta_files s' !! other = meta_files s !! other ∧
    data_files s' !! other = data_files s !! other ∧
    BlobPersistence.read_meta other s'
      = ((BlobPersistence.read_meta other s).1, s') ∧
    BlobPersistence.read_content other s'
      = ((BlobPersistence.read_content other s).1, s').
Proof.
  intros s'.
  assert (meta_files s' !! id meta = Some meta) as Hm0
    by (simpl; apply lookup_insert_eq).
  assert (data_files s' !! id meta = Some content) as Hd0
    by (simpl; apply lookup_insert_eq).
  split_and!.
  - unfold BlobPersistence.read_pair, svc_bind.
    rewrite (read_meta_present (id meta) meta s' Hm0).
    by rewrite (read_content_present (id meta) content s' Hd0).
  - unfold BlobPersistence.exists_. by rewrite Hm0, Hd0.
  - intros other Hne.
    assert (meta_files s' !! other = meta_files s !! other) as Hm
      by (simpl; by rewrite lookup_insert_ne).
    assert (data_files s' !! other = data_files s !! other) as Hd
      by (simpl; by rewrite lookup_insert_ne).
    split_and!; [done..| |].
    + unfold BlobPersistence.read_meta. rewrite Hm.
      destruct (meta_files s !! other); [done|]. by destruct (open_error _).
    + unfold BlobPersistence.read_content. rewrite Hd.
      destruct (data_files s !! other); [done|]. by destruct (open_error _).
Qed.

(** X2. [read_pair] returns a pair exactly when [exists] answers [True],
    that is when both files are present, and then it is the stored pair;
    neither call changes the storage. *)
Theorem read_pair_exists blob_id s :
  (BlobPersistence.read_pair blob_id s).2 = s ∧
  (BlobPersistence.exists_ blob_id s).2 = s ∧
  ((∃ pair, (BlobPersistence.read_pair blob_id s).1 = Returned (Some pair))
   ↔ (BlobPersistence.exists_ blob_id s).1 = true) ∧
  ∀ meta content,
    (BlobPersistence.read_pair blob_id s).1 = Returned (Some (meta, content))
    ↔ meta_files s !! blob_id = Some meta ∧ data_files s !! blob_id = Some content.
Proof.
  unfold BlobPersistence.read_pair, BlobPersistence.exists_, svc_bind, svc_ret,
    BlobPersistence.read_meta, BlobPersistence.read_content.
  destruct (meta_files s !! blob_id) as [m|] eqn:Em;
    destruct (data_files s !! blob_id) as [d|] eqn:Ed; simpl.
  - split_and!; [done|done| |].
    + split; [done|]. intros _. by eexists.
    + intros meta content. split; [by intros [= -> ->]|].
      by intros [[= ->] [= ->]].
  - destruct (open_error (BlobPersistence._data blob_id)); simpl;
      (split_and!; [done|done| |]).
    all: try (split; [by intros [? ?]|done]).
    all: intros meta content; split; [done|]; by intros [_ ?].
  - destruct (open_error (BlobPersistence._meta blob_id)); simpl;
      (split_and!; [done|done| |]).
    all: try (split; [by intros [? ?]|done]).
    all: intros meta content; split; [done|]; by intros [? _].
  - destruct (open_error (BlobPersistence._meta blob_id)); simpl;
      (split_and!; [done|done| |]).
    all: try (split; [by intros [? ?]|done]).
    all: intros meta content; split; [done|]; by intros [? _].
Qed.

(** X3. [update_content] returns [True] exactly when the content file
    exists.  It never creates one: on [False] the storage is unchanged.  On
    [True] the new content is what [read_content] returns, the metadata
    files are untouched and so is the content of every other id. *)
Theorem update_content_spec blob_id new_content s :
  let r := BlobPersistence.update_content blob_id new_content s in
  (r.1 = true ↔ is_Some (data_files s !! blob_id)) ∧
  (r.1 = false → r.2 = s) ∧
  (r.1 = true →
     BlobPersistence.read_content blob_id r.2
       = (Returned (Some new_content), r.2) ∧
     meta_files r.2 = meta_files s ∧
     ∀ other, other ≠ blob_id → data_files r.2 !! other = data_files s !! other).
Proof.
  simpl. unfold BlobPersistence.update_content.
  destruct (data_files s !! blob_id) as [d|] eqn:Ed; simpl.
  - split_and!; [by split; eauto|done|]. intros _.
    erewrite read_content_present by (simpl; apply lookup_insert_eq).
    split_and!; [done..|]. intros other Hne. by rewrite lookup_insert_ne.
  - split_and!; [|done..]. split; [done|]. by intros [].
Qed.

(** X4. [update_meta] is keyed by [meta.id]: it returns [True] exactly when
    a metadata file exists under that id and never creates one.  On [True],
    [read_meta] of that id returns the new metadata; the content files and
    the metadata of the other ids are untouched. *)
Theorem update_meta_spec meta s :
  let r := BlobPersistence.update_meta meta s in
  (r.1 = true ↔ is_Some (meta_files s !! id meta)) ∧
  (r.1 = false → r.2 = s) ∧
  (r.1 = true →
     BlobPersistence.read_meta (id meta) r.2 = (Returned (Some meta), r.2) ∧
     data_files r.2 = data_files s ∧
     ∀ other, other ≠ id meta → meta_files r.2 !! other = meta_files s !! other).
Proof.
  simpl. unfold BlobPersistence.update_meta.
  destruct (meta_files s !! id meta) as [m|] eqn:Em; simpl.
  - split_and!; [by split; eauto|done|]. intros _.
    erewrite read_meta_present by (simpl; apply lookup_insert_eq).
    split_and!; [done..|]. intros other Hne. by rewrite lookup_insert_ne.
  - split_and!; [|done..]. split; [done|]. by intros [].
Qed.

(** X5. [delete] returns [True] exactly when both files exist.  When one
    of them is missing it returns [False] and removes nothing, so the half
    that is left stays in the storage; when it succeeds the records of the
    other ids are untouched. *)
Theorem delete_spec blob_id s :
  let r := BlobPersistence.delete blob_id s in
  (r.1 = true
   ↔ is_Some (meta_files s !! blob_id) ∧ is_Some (data_files s !! blob_id)) ∧
  (r.1 = false → r.2 = s) ∧
  (r.1 = true →
     BlobPersistence.exists_ blob_id r.2 = (false, r.2) ∧
     ∀ other, other ≠ blob_id →
       meta_files r.2 !! other = meta_files s !! other ∧
       data_files r.2 !! other = data_files s !! other).
Proof.
  simpl. unfold BlobPersistence.delete, BlobPersistence.exists_.
  destruct (data_files s !! blob_id) as [d|] eqn:Ed;
    destruct (meta_files s !! blob_id) as [m|] eqn:Em; simpl.
  - split_and!; [by split; eauto|done|]. intros _.
    rewrite !lookup_delete_eq. simpl.
    split; [done|]. intros other Hne. by rewrite !lookup_delete_ne.
  - split_and!; [|done..]. split; [done|]. by intros [[] _].
  - split_and!; [|done..]. split; [done|]. by intros [_ []].
  - split_and!; [|done..]. split; [done|]. by intros [[] _].
Qed.

(** X6. [list_ids] lists each id with a metadata file once, and no other
    id; whether the content file exists plays no part. *)
Theorem list_ids_spec s :
  (BlobPersistence.list_ids s).2 = s ∧
  NoDup (BlobPersistence.list_ids s).1 ∧
  ∀ blob_id,
    blob_id ∈ (BlobPersistence.list_ids s).1 ↔ is_Some (meta_files s !! blob_id).
Proof.
  unfold BlobPersistence.list_ids. simpl. split_and!; [done| |].
  - apply NoDup_fst_map_to_list.
  - intros blob_id. rewrite list_elem_of_fmap. split.
    + intros ([k m] & -> & Hin). apply elem_of_map_to_list in Hin. eauto.
    + intros [m Hm]. exists (blob_id, m). split; [done|].
      by apply elem_of_map_to_list.
Qed.

(** ** business.py: what a request can touch *)

Lemma bind_check_owner_state {A} user blob_id (k : BlobMeta → Svc A) s :
  (svc_bind (BlobService._check_access user blob_id false true) k s).2 =
  match meta_files s !! blob_id with
  | Some meta => if bool_decide (user = owner meta) then (k meta s).2 else s
  | None => s
  end.
Proof.
  unfold svc_bind. rewrite check_access_run.
  destruct (meta_files s !! blob_id) as [meta|]; [|done]. simpl.
  by case_bool_decide as Hu; case_bool_decide as Hu'.
Qed.

Lemma bind_check_read_state {A} user blob_id (k : BlobMeta → Svc A) s :
  (∀ meta, (k meta s).2 = s) →
  (svc_bind (BlobService._check_access user blob_id true false) k s).2 = s.
Proof.
  intros Hk. unfold svc_bind.
  pose proof (check_access_state user blob_id true false s) as Hs.
  destruct (BlobService._check_access user blob_id true false s) as [[meta|e] s0];
    simpl in Hs; subst s0; [|done].
  specialize (Hk meta). by destruct (k meta s) as [[a|e] s1].
Qed.

Lemma update_content_state blob_id new_content s :
  (BlobPersistence.update_content blob_id new_content s).2 =
  if bool_decide (is_Some (data_files s !! blob_id))
  then mkStorage (<[blob_id := new_content]> (data_files s)) (meta_files s)
  else s.
Proof.
  unfold BlobPersistence.update_content.
  by destruct (data_files s !! blob_id).
Qed.

Lemma write_content_state blob_id new_content s :
  (svc_bind (call (BlobPersistence.update_content blob_id new_content))
     (λ ok, if negb ok then raise (BlobNotFound blob_id) else svc_ret tt) s).2
  = (BlobPersistence.update_content blob_id new_content s).2.
Proof.
  unfold svc_bind, call, raise, svc_ret.
  by destruct (BlobPersistence.update_content blob_id new_content s) as [[] s1].
Qed.

Lemma write_meta_state meta s :
  (svc_bind (call (BlobPersistence.update_meta meta)) (λ _, svc_ret tt) s).2
  = (BlobPersistence.update_meta meta s).2.
Proof.
  unfold svc_bind, call, svc_ret.
  by destruct (BlobPersistence.update_meta meta s) as [ok s1].
Qed.

Lemma touch_write_content blob_id meta new_content s :
  meta_files s !! blob_id = Some meta →
  touch s blob_id (BlobPersistence.update_content blob_id new_content s).2.
Proof.
  intros Hm. rewrite update_content_state.
  case_bool_decide; [by eapply touch_content|constructor].
Qed.

Lemma NoDup_list_remove x l : NoDup l → NoDup (list_remove x l).
Proof.
  induction 1 as [|y l Hy Hl IH]; simpl; [constructor|].
  case_decide; [done|]. constructor; [|done].
  intros Hin. apply Hy. clear -Hin.
  induction l as [|z l IH]; simpl in *; [done|].
  case_decide; [by right|].
  apply elem_of_cons in Hin as [->|Hin]; [left|right; auto].
Qed.

Lemma handle_touch `{SetOrder} req blob_id s :
  target req = Some blob_id → touch s blob_id (handle req s).2.
Proof.
  intros Ht.
  destruct req; cbn [target] in Ht; simplify_eq; cbn [handle];
    rewrite reply_state.
  - (* update_blob *)
    unfold BlobService.update_blob. rewrite read_meta_or_raise.
    destruct (meta_files s !! blob_id) as [meta|] eqn:Em; [|constructor].
    case_bool_decide; [constructor|].
    rewrite write_content_state. by eapply touch_write_content.
  - rewrite read_blob_state. constructor.
  - (* delete_blob *)
    unfold BlobService.delete_blob. rewrite bind_check_owner_state.
    destruct (meta_files s !! blob_id) as [meta|] eqn:Em; [|constructor].
    case_bool_decide; [|constructor].
    unfold svc_bind, call, raise, svc_ret, BlobPersistence.delete. rewrite Em.
    destruct (data_files s !! blob_id) as [d|] eqn:Ed; simpl; [|constructor].
    apply touch_delete; eauto.
  - (* modify_blob *)
    unfold BlobService.modify_blob. rewrite bind_check_owner_state.
    destruct (meta_files s !! blob_id) as [meta|] eqn:Em; [|constructor].
    case_bool_decide; [|constructor].
    destruct new_name as [[|c n]|]; [constructor| |constructor].
    rewrite write_meta_state. by eapply touch_meta.
  - (* replace_blob *)
    unfold BlobService.replace_blob. rewrite bind_check_owner_state.
    destruct (meta_files s !! blob_id) as [meta|] eqn:Em; [|constructor].
    case_bool_decide; [|constructor].
    rewrite write_content_state. by eapply touch_write_content.
  - (* set_readable_by *)
    unfold BlobService.set_readable_by. rewrite bind_check_owner_state.
    destruct (meta_files s !! blob_id) as [meta|] eqn:Em; [|constructor].
    case_bool_decide; [|constructor].
    rewrite write_meta_state. eapply touch_meta; [done..|].
    intros _. apply list_set_NoDup.
  - unfold BlobService.get_meta. rewrite check_access_state. constructor.
  - unfold BlobService.get_readable_by.
    rewrite bind_check_read_state by done. constructor.
  - (* set_name *)
    unfold BlobService.set_name. rewrite bind_check_owner_state.
    destruct (meta_files s !! blob_id) as [meta|] eqn:Em; [|constructor].
    case_bool_decide; [|constructor].
    rewrite write_meta_state. by eapply touch_meta.
  - (* add_reader *)
    unfold BlobService.add_reader. rewrite bind_check_owner_state.
    destruct (meta_files s !! blob_id) as [meta|] eqn:Em; [|constructor].
    case_bool_decide; [|constructor].
    case_bool_decide as Hin; [|constructor].
    rewrite write_meta_state. eapply touch_meta; [done..|].
    simpl. intros Hnd. apply NoDup_app. split_and!; [done| |apply NoDup_singleton].
    intros x Hx ->%list_elem_of_singleton. done.
  - (* remove_reader *)
    unfold BlobService.remove_reader. rewrite bind_check_owner_state.
    destruct (meta_files s !! blob_id) as [meta|] eqn:Em; [|constructor].
    case_bool_decide; [|constructor].
    destruct (_ && _); [|constructor].
    rewrite write_meta_state. eapply touch_meta; [done..|].
    simpl. apply NoDup_list_remove.
Qed.

Lemma touch_readers_nodup s blob_id s' :
  touch s blob_id s' → readers_nodup s → readers_nodup s'.
Proof.
  intros Ht Hinv.
  destruct Ht as [|meta content Hm Hd|meta meta' Hm Hid Ho He Hnd|Hm Hd];
    [done|done| |].
  - rewrite update_meta_run. case_bool_decide; [|done].
    intros k m; simpl. intros [[<- <-]|[_ Hk]]%lookup_insert_Some.
    + apply Hnd. by eapply (Hinv blob_id).
    + by eapply (Hinv k).
  - intros k m; simpl. intros [_ Hk]%lookup_delete_Some. by eapply (Hinv k).
Qed.

Lemma non_target_state `{SetOrder} req s :
  target req = None →
  (∃ uuid4 user name content readers extra,
      req = CreateBlob uuid4 user name content readers extra) ∨
  (handle req s).2 = s.
Proof.
  destruct req; try done; intros _.
  - left. by repeat eexists.
  - right. cbn [handle]. rewrite reply_state. apply list_blobs_state.
Qed.

Lemma handle_readers_nodup `{SetOrder} req s :
  readers_nodup s → readers_nodup (handle req s).2.
Proof.
  intros Hinv. destruct (target req) as [blob_id|] eqn:Ht.
  - eapply touch_readers_nodup; [by apply handle_touch|done].
  - destruct (non_target_state req s Ht)
      as [(uuid4 & user & n & c & readers & extra & ->) | ->]; [|done].
    cbn [handle]. rewrite reply_state, create_blob_run. simpl.
    intros k m; simpl. intros [[<- <-]|[_ Hk]]%lookup_insert_Some.
    + simpl. apply list_set_NoDup.
    + by eapply (Hinv k).
Qed.

Lemma touch_names_usable s blob_id s' :
  touch s blob_id s' → names_usable s → names_usable s'.
Proof.
  intros Ht [Hmeta Hdata].
  destruct Ht as [|meta content Hm [d Hd]|meta meta' Hm Hid Ho He Hnd|Hm Hd];
    [done| | |].
  - split; [done|]. intros k c; simpl.
    intros [[<- _]|[_ Hk]]%lookup_insert_Some; [by apply (Hdata blob_id d)|].
    by apply (Hdata k c).
  - rewrite update_meta_run. case_bool_decide as Hex; [|done].
    split; [|done]. intros k m; simpl. destruct Hex as [old Hold].
    intros [[<- _]|[_ Hk]]%lookup_insert_Some; [by apply (Hmeta _ old)|].
    by apply (Hmeta k m).
  - split; intros k v; simpl; intros [_ Hk]%lookup_delete_Some.
    + by apply (Hmeta k v).
    + by apply (Hdata k v).
Qed.

(** Names stay usable as long as the generated ids are. *)
Lemma handle_names_usable `{SetOrder} req s :
  generates_usable_id req = true →
  names_usable s → names_usable (handle req s).2.
Proof.
  intros Hgen Hinv. destruct (target req) as [blob_id|] eqn:Ht.
  - eapply touch_names_usable; [by apply handle_touch|done].
  - destruct (non_target_state req s Ht)
      as [(uuid4 & user & n & c & readers & extra & ->) | ->]; [|done].
    cbn [handle]. rewrite reply_state, create_blob_run. simpl in *.
    destruct Hinv as [Hmeta Hdata].
    split; intros k v; simpl; intros [[<- _]|[_ Hk]]%lookup_insert_Some;
      try done.
    + by apply (Hmeta k v).
    + by apply (Hdata k v).
Qed.

Lemma serve_names_usable `{SetOrder} reqs :
  Forall (λ req, generates_usable_id req = true) reqs →
  names_usable (serve reqs empty_storage).
Proof.
  unfold serve.
  assert (names_usable empty_storage) as H0
    by (split; intros k v; simpl; by rewrite lookup_empty).
  revert H0. generalize empty_storage as s.
  induction reqs as [|req reqs IH]; intros s Hs Hall; [done|].
  apply Forall_cons in Hall as [Hreq Hall].
  simpl. apply IH; [|done]. by apply handle_names_usable.
Qed.

(** X7. Starting from an empty directory, after any sequence of requests to
    the service, whatever their outcomes and whatever ids [uuid4] produced:
    every object lists its owner as a reader, every reader list is free of
    duplicates, every metadata file records the id it is stored under, and
    metadata and content files exist together. *)
Theorem serve_keeps_invariants `{SetOrder} reqs :
  owner_reads (serve reqs empty_storage) ∧
  readers_nodup (serve reqs empty_storage) ∧
  ids_match (serve reqs empty_storage) ∧
  complete (serve reqs empty_storage).
Proof.
  unfold serve.
  assert (owner_reads empty_storage ∧ readers_nodup empty_storage ∧
          ids_match empty_storage ∧ complete empty_storage) as H0.
  { split_and!; try (intros k m; simpl; by rewrite lookup_empty).
    intros k. simpl. rewrite !lookup_empty. split; by intros []. }
  revert H0. generalize empty_storage as s.
  induction reqs as [|req reqs IH]; intros s (H1 & H2 & H3 & H4); [done|].
  simpl. apply IH. split_and!.
  - by apply handle_owner_reads.
  - by apply handle_readers_nodup.
  - by apply handle_ids_match.
  - by apply handle_complete.
Qed.

Lemma touch_frame s blob_id s' other :
  touch s blob_id s' → ids_match s → other ≠ blob_id →
  meta_files s' !! other = meta_files s !! other ∧
  data_files s' !! other = data_files s !! other.
Proof.
  intros Ht Hids Hne.
  destruct Ht as [|meta content Hm Hd|meta meta' Hm Hid Ho He Hnd|Hm Hd]; simpl.
  - done.
  - by rewrite lookup_insert_ne.
  - rewrite update_meta_run. case_bool_decide; [|done]. simpl.
    rewrite lookup_insert_ne; [done|].
    rewrite Hid, (Hids blob_id meta Hm). done.
  - by rewrite !lookup_delete_ne.
Qed.

(** X8. Isolation: on a storage whose metadata files record their own ids,
    a request changes no record of any id other than the one it names (for
    [create_blob], other than the generated id); [list_blobs] changes
    nothing at all. *)
Theorem request_touches_one_id `{SetOrder} req s other :
  ids_match s →
  written_id req ≠ Some other →
  meta_files (handle req s).2 !! other = meta_files s !! other ∧
  data_files (handle req s).2 !! other = data_files s !! other.
Proof.
  intros Hids Hw. destruct (target req) as [blob_id|] eqn:Ht.
  - eapply touch_frame; [by apply handle_touch|done|].
    intros ->. apply Hw. by destruct req.
  - destruct (non_target_state req s Ht)
      as [(uuid4 & user & n & c & readers & extra & ->) | ->]; [|done].
    cbn [handle]. rewrite reply_state, create_blob_run. simpl.
    rewrite !lookup_insert_ne; [done|..]; intros ->; by apply Hw.
Qed.

Lemma request_touches_one_id_witness :
  ids_match alice_storage ∧
  written_id (CreateBlob "id2" "bob" "b.txt" hello None None) ≠ Some "id1" ∧
  meta_files (handle (CreateBlob "id2" "bob" "b.txt" hello None None)
                alice_storage).2 !! "id1"
    = meta_files alice_storage !! "id1" ∧
  data_files (handle (CreateBlob "id2" "bob" "b.txt" hello None None)
                alice_storage).2 !! "id1"
    = data_files alice_storage !! "id1".
Proof.
  assert (ids_match alice_storage) as Hids
    by (apply (bool_decide_unpack _); vm_compute; exact I).
  split; [exact Hids|]. split; [discriminate|].
  apply (request_touches_one_id
           (CreateBlob "id2" "bob" "b.txt" hello None None) alice_storage "id1");
    [exact Hids | discriminate].
Defined.

(** X9. Only [create_blob] brings metadata into existence, and nothing
    changes who owns an object: on a storage whose metadata files record
    their own ids, after any other request every metadata file that exists
    existed before, with the same id, owner and extra data. *)
Theorem owner_never_changes `{SetOrder} req s blob_id meta' :
  ids_match s →
  is_create req = false →
  meta_files (handle req s).2 !! blob_id = Some meta' →
  ∃ meta, meta_files s !! blob_id = Some meta ∧
    id meta' = id meta ∧ owner meta' = owner meta ∧ extra meta' = extra meta.
Proof.
  intros Hids Hc. destruct (target req) as [b|] eqn:Ht.
  - pose proof (handle_touch req b s Ht) as Htouch.
    destruct Htouch as [|meta content Hm Hd|meta meta1 Hm Hid Ho He Hnd|Hm Hd];
      simpl; eauto.
    + rewrite update_meta_run. case_bool_decide; [|eauto]. simpl.
      rewrite Hid, (Hids b meta Hm).
      intros [[<- <-]|[_ Hk]]%lookup_insert_Some; eauto.
    + intros [_ Hk]%lookup_delete_Some. eauto.
  - destruct (non_target_state req s Ht)
      as [(uuid4 & user & n & c & readers & extra & ->) | ->]; [done|eauto].
Qed.

Lemma owner_never_changes_witness :
  ids_match alice_storage ∧
  is_create (SetName "alice" "id1" "new.txt") = false ∧
  meta_files (handle (SetName "alice" "id1" "new.txt") alice_storage).2 !! "id1"
    = Some (set_meta_name alice_meta "new.txt") ∧
  ∃ meta, meta_files alice_storage !! "id1" = Some meta ∧
    id (set_meta_name alice_meta "new.txt") = id meta ∧
    owner (set_meta_name alice_meta "new.txt") = owner meta ∧
    extra (set_meta_name alice_meta "new.txt") = extra meta.
Proof.
  assert (ids_match alice_storage) as Hids
    by (apply (bool_decide_unpack _); vm_compute; exact I).
  split; [exact Hids|]. split; [reflexivity|]. split; [reflexivity|].
  apply (owner_never_changes (SetName "alice" "id1" "new.txt") alice_storage
           "id1" (set_meta_name alice_meta "new.txt"));
    [exact Hids | reflexivity | reflexivity].
Defined.

(** ** business.py: who may do what *)

Lemma bind_check_not_owner {A} user blob_id meta (k : BlobMeta → Svc A) s :
  meta_files s !! blob_id = Some meta →
  user ≠ owner meta →
  svc_bind (BlobService._check_access user blob_id false true) k s
  = (Raised (Forbidden blob_id user), s).
Proof.
  intros Hm Hne. unfold svc_bind.
  by rewrite (check_access_not_owner user blob_id meta s Hm Hne).
Qed.

Lemma bind_check_owner {A} user blob_id meta (k : BlobMeta → Svc A) s :
  meta_files s !! blob_id = Some meta →
  user = owner meta →
  svc_bind (BlobService._check_access user blob_id false true) k s = k meta s.
Proof.
  intros Hm Hu. unfold svc_bind.
  rewrite (check_access_owner user blob_id meta s Hm Hu).
  by destruct (k meta s) as [[a|e] s1].
Qed.

(** X10. A user who is not the owner of an existing object cannot change
    it, reader or not: every method that writes or deletes (update,
    replace, delete, rename through either entry point, and the three
    reader-list methods) raises [Forbidden] and leaves the storage as it
    was. *)
Theorem non_owner_changes_nothing `{SetOrder} req blob_id s meta :
  owner_only req = true →
  target req = Some blob_id →
  meta_files s !! blob_id = Some meta →
  req_user req ≠ owner meta →
  handle req s = (Raised (Forbidden blob_id (req_user req)), s).
Proof.
  intros Hoo Ht Hm Hne.
  destruct req; try discriminate Hoo; cbn [target req_user] in *; simplify_eq;
    cbn [handle]; unfold reply; unfold svc_bind at 1.
  - unfold BlobService.update_blob. rewrite read_meta_or_raise, Hm.
    by rewrite bool_decide_eq_true_2.
  - unfold BlobService.delete_blob.
    by rewrite (bind_check_not_owner _ _ meta) by done.
  - unfold BlobService.modify_blob.
    by rewrite (bind_check_not_owner _ _ meta) by done.
  - unfold BlobService.replace_blob.
    by rewrite (bind_check_not_owner _ _ meta) by done.
  - unfold BlobService.set_readable_by.
    by rewrite (bind_check_not_owner _ _ meta) by done.
  - unfold BlobService.set_name.
    by rewrite (bind_check_not_owner _ _ meta) by done.
  - unfold BlobService.add_reader.
    by rewrite (bind_check_not_owner _ _ meta) by done.
  - unfold BlobService.remove_reader.
    by rewrite (bind_check_not_owner _ _ meta) by done.
Qed.

Lemma non_owner_changes_nothing_witness :
  owner_only (AddReader "bob" "id1" "bob") = true ∧
  target (AddReader "bob" "id1" "bob") = Some "id1" ∧
  meta_files alice_storage !! "id1" = Some alice_meta ∧
  req_user (AddReader "bob" "id1" "bob") ≠ owner alice_meta ∧
  handle (AddReader "bob" "id1" "bob") alice_storage
    = (Raised (Forbidden "id1" "bob"), alice_storage).
Proof.
  split; [reflexivity|]. split; [reflexivity|]. split; [reflexivity|].
  split; [discriminate|].
  apply (non_owner_changes_nothing (AddReader "bob" "id1" "bob") "id1"
           alice_storage alice_meta);
    [reflexivity | reflexivity | reflexivity | discriminate].
Defined.

Lemma read_blob_run user blob_id s meta :
  meta_files s !! blob_id = Some meta →
  BlobService.read_blob user blob_id s =
  if bool_decide (user ∈ readable_by meta)
  then match data_files s !! blob_id with
       | Some data => (Returned data, s)
       | None =>
           (Raised (absent_error (BlobPersistence._data blob_id) blob_id), s)
       end
  else (Raised (Forbidden blob_id user), s).
Proof.
  intros Hm. unfold BlobService.read_blob, svc_bind at 1.
  rewrite check_access_run, Hm. simpl.
  case_bool_decide as Hout; case_bool_decide as Hin; try done.
  rewrite read_content_or_raise. by destruct (data_files s !! blob_id).
Qed.

Lemma get_meta_run user blob_id s meta :
  meta_files s !! blob_id = Some meta →
  BlobService.get_meta user blob_id s =
  if bool_decide (user ∈ readable_by meta)
  then (Returned meta, s)
  else (Raised (Forbidden blob_id user), s).
Proof.
  intros Hm. unfold BlobService.get_meta.
  rewrite check_access_run, Hm. simpl.
  by case_bool_decide as Hout; case_bool_decide as Hin.
Qed.

(** X11. Read access is decided by the reader list alone, the same way for
    the three read methods: on an object with both files present, a user
    in [readable_by] gets the content from [read_blob], the metadata from
    [get_meta] and the list from [get_readable_by]; any other user, the
    owner included when the list omits them, gets [Forbidden] from all
    three.  None of them changes the storage. *)
Theorem read_access user blob_id s meta content :
  meta_files s !! blob_id = Some meta →
  data_files s !! blob_id = Some content →
  (user ∈ readable_by meta →
     BlobService.read_blob user blob_id s = (Returned content, s) ∧
     BlobService.get_meta user blob_id s = (Returned meta, s) ∧
     BlobService.get_readable_by user blob_id s
       = (Returned (readable_by meta), s)) ∧
  (user ∉ readable_by meta →
     BlobService.read_blob user blob_id s = (Raised (Forbidden blob_id user), s) ∧
     BlobService.get_meta user blob_id s = (Raised (Forbidden blob_id user), s) ∧
     BlobService.get_readable_by user blob_id s
       = (Raised (Forbidden blob_id user), s)).
Proof.
  intros Hm Hd.
  rewrite (read_blob_run user blob_id s meta Hm), Hd.
  rewrite (get_meta_run user blob_id s meta Hm).
  unfold BlobService.get_readable_by, svc_bind, svc_ret.
  rewrite check_access_run, Hm. simpl.
  split; intros Hin.
  - rewrite bool_decide_eq_true_2 by done.
    rewrite bool_decide_eq_false_2 by (by intros ?). done.
  - rewrite bool_decide_eq_false_2 by done.
    rewrite bool_decide_eq_true_2 by done. done.
Qed.

Lemma read_access_witness :
  meta_files alice_storage !! "id1" = Some alice_meta ∧
  data_files alice_storage !! "id1" = Some hello ∧
  BlobService.read_blob "bob" "id1" alice_storage
    = (Raised (Forbidden "id1" "bob"), alice_storage) ∧
  BlobService.read_blob "alice" "id1" alice_storage
    = (Returned hello, alice_storage).
Proof.
  split; [reflexivity|]. split; [reflexivity|].
  destruct (read_access "bob" "id1" alice_storage alice_meta hello
              eq_refl eq_refl) as [_ Hno].
  destruct (read_access "alice" "id1" alice_storage alice_meta hello
              eq_refl eq_refl) as [Hyes _].
  split.
  - apply Hno. apply (bool_decide_unpack _). vm_compute. exact I.
  - apply Hyes. apply (bool_decide_unpack _). vm_compute. exact I.
Defined.

(** ** business.py: renaming *)

Lemma update_meta_stored meta meta' s :
  meta_files s !! id meta = Some meta →
  id meta' = id meta →
  BlobPersistence.update_meta meta' s
  = (true, mkStorage (data_files s) (<[id meta := meta']> (meta_files s))).
Proof.
  intros Hm Hid. unfold BlobPersistence.update_meta. by rewrite Hid, Hm.
Qed.






(** ** business.py: granting and revoking read access *)

Lemma elem_of_list_remove_NoDup x y l :
  NoDup l → y ∈ list_remove x l ↔ y ∈ l ∧ y ≠ x.
Proof.
  induction 1 as [|z l Hz Hl IH]; simpl.
  - split; [by intros ?%elem_of_nil|]. by intros [?%elem_of_nil _].
  - case_decide as Hxz.
    + subst z. split.
      * intros Hy. split; [by right|]. by intros ->.
      * intros [[->|Hy]%elem_of_cons Hne]; done.
    + rewrite !elem_of_cons, IH. split.
      * intros [->|[Hy Hne]]; [split; [by left|done]|split; [by right|done]].
      * intros [[->|Hy] Hne]; [by left|by right].
Qed.

(** X14. Granting: when the owner of an existing object (stored under its
    own id, content present) calls [add_reader], the target can read the
    content afterwards, and for every other user [read_blob] answers as it
    did before. *)
Theorem add_reader_grants user blob_id target_user s meta content :
  meta_files s !! blob_id = Some meta →
  id meta = blob_id →
  data_files s !! blob_id = Some content →
  user = owner meta →
  let s' := (BlobService.add_reader user blob_id target_user s).2 in
  BlobService.read_blob target_user blob_id s' = (Returned content, s') ∧
  ∀ other, other ≠ target_user →
    (BlobService.read_blob other blob_id s').1
    = (BlobService.read_blob other blob_id s).1.
Proof.
  intros Hm Hid Hd Hu. subst blob_id. simpl.
  rewrite (add_reader_run user (id meta) target_user s meta Hm Hu). simpl.
  case_bool_decide as Hout.
  - rewrite (update_meta_stored meta
               (set_meta_readable_by meta (readable_by meta ++ [target_user]))
               s Hm eq_refl).
    simpl. split.
    + erewrite read_blob_run; [|simpl; apply lookup_insert_eq]. simpl.
      rewrite Hd, bool_decide_eq_true_2; [done|].
      apply elem_of_app. right. left.
    + intros other Hne.
      erewrite read_blob_run; [|simpl; apply lookup_insert_eq].
      rewrite (read_blob_run other (id meta) s meta Hm). simpl. rewrite Hd.
      rewrite (bool_decide_ext (other ∈ readable_by meta ++ [target_user])
                 (other ∈ readable_by meta)).
      * by case_bool_decide.
      * rewrite elem_of_app, list_elem_of_singleton.
        split; [by intros [?| ->]|by left].
  - split; [|done].
    rewrite (read_blob_run target_user (id meta) s meta Hm), Hd.
    by rewrite bool_decide_eq_true_2.
Qed.

Lemma add_reader_grants_witness :
  meta_files alice_storage !! "id1" = Some alice_meta ∧
  id alice_meta = "id1" ∧
  data_files alice_storage !! "id1" = Some hello ∧
  "alice" = owner alice_meta ∧
  BlobService.read_blob "bob" "id1"
    (BlobService.add_reader "alice" "id1" "bob" alice_storage).2
  = (Returned hello, (BlobService.add_reader "alice" "id1" "bob" alice_storage).2).
Proof.
  split; [reflexivity|]. split; [reflexivity|]. split; [reflexivity|].
  split; [reflexivity|].
  apply (add_reader_grants "alice" "id1" "bob" alice_storage alice_meta hello);
    reflexivity.
Defined.

(** X15. Revoking: when the owner of an existing object (stored under its
    own id, reader list free of duplicates) calls [remove_reader] on a
    user other than the owner, that user gets [Forbidden] from [read_blob]
    and [get_meta] afterwards, and for every other user [read_blob]
    answers as it did before. *)
Theorem remove_reader_revokes user blob_id target_user s meta :
  meta_files s !! blob_id = Some meta →
  id meta = blob_id →
  NoDup (readable_by meta) →
  user = owner meta →
  target_user ≠ owner meta →
  let s' := (BlobService.remove_reader user blob_id target_user s).2 in
  BlobService.read_blob target_user blob_id s'
    = (Raised (Forbidden blob_id target_user), s') ∧
  BlobService.get_meta target_user blob_id s'
    = (Raised (Forbidden blob_id target_user), s') ∧
  ∀ other, other ≠ target_user →
    (BlobService.read_blob other blob_id s').1
    = (BlobService.read_blob other blob_id s).1.
Proof.
  intros Hm Hid Hnd Hu Hne. subst blob_id. simpl.
  rewrite (remove_reader_run user (id meta) target_user s meta Hm Hu). simpl.
  rewrite (bool_decide_eq_true_2 (target_user ≠ owner meta)) by done.
  rewrite andb_true_r. case_bool_decide as Hin.
  - rewrite (update_meta_stored meta
               (set_meta_readable_by meta
                  (list_remove target_user (readable_by meta))) s Hm eq_refl).
    simpl.
    set (meta' := set_meta_readable_by meta _).
    set (s' := mkStorage _ _).
    assert (meta_files s' !! id meta = Some meta') as Hm'
      by apply lookup_insert_eq.
    assert (target_user ∉ readable_by meta') as Hgone.
    { simpl. rewrite elem_of_list_remove_NoDup by done. by intros [_ ?]. }
    split_and!.
    + rewrite (read_blob_run target_user (id meta) s' meta' Hm').
      by rewrite bool_decide_eq_false_2.
    + rewrite (get_meta_run target_user (id meta) s' meta' Hm').
      by rewrite bool_decide_eq_false_2.
    + intros other Hother.
      rewrite (read_blob_run other (id meta) s' meta' Hm').
      rewrite (read_blob_run other (id meta) s meta Hm).
      rewrite (bool_decide_ext (other ∈ readable_by meta')
                 (other ∈ readable_by meta)).
      * case_bool_decide; [|done]. simpl.
        by destruct (data_files s !! id meta).
      * simpl. rewrite elem_of_list_remove_NoDup by done.
        split; [by intros [? _]|done].
  - split_and!; [| |done].
    + rewrite (read_blob_run target_user (id meta) s meta Hm).
      by rewrite bool_decide_eq_false_2.
    + rewrite (get_meta_run target_user (id meta) s meta Hm).
      by rewrite bool_decide_eq_false_2.
Qed.

Lemma remove_reader_revokes_witness :
  meta_files alice_bob_storage !! "id1" = Some alice_bob_meta ∧
  id alice_bob_meta = "id1" ∧
  NoDup (readable_by alice_bob_meta) ∧
  "alice" = owner alice_bob_meta ∧
  "bob" ≠ owner alice_bob_meta ∧
  BlobService.read_blob "bob" "id1" alice_bob_storage
    = (Returned hello, alice_bob_storage) ∧
  BlobService.read_blob "bob" "id1"
    (BlobService.remove_reader "alice" "id1" "bob" alice_bob_storage).2
  = (Raised (Forbidden "id1" "bob"),
     (BlobService.remove_reader "alice" "id1" "bob" alice_bob_storage).2).
Proof.
  assert (NoDup (readable_by alice_bob_meta)) as Hnd
    by (apply (bool_decide_unpack _); vm_compute; exact I).
  split; [reflexivity|]. split; [reflexivity|]. split; [exact Hnd|].
  split; [reflexivity|]. split; [discriminate|]. split; [reflexivity|].
  apply (remove_reader_revokes "alice" "id1" "bob" alice_bob_storage
           alice_bob_meta);
    [reflexivity | reflexivity | exact Hnd | reflexivity | discriminate].
Defined.

(** ** business.py: content *)

Lemma update_blob_run user blob_id new_content s meta :
  meta_files s !! blob_id = Some meta →
  user = owner meta →
  BlobService.update_blob user blob_id new_content s =
  match data_files s !! blob_id with
  | Some _ =>
      (Returned tt,
       mkStorage (<[blob_id := new_content]> (data_files s)) (meta_files s))
  | None => (Raised (BlobNotFound blob_id), s)
  end.
Proof.
  intros Hm Hu. unfold BlobService.update_blob.
  rewrite read_meta_or_raise, Hm. rewrite bool_decide_eq_false_2 by auto.
  unfold svc_bind, call, BlobPersistence.update_content.
  by destruct (data_files s !! blob_id).
Qed.

(** X16. Content round trip: when the owner updates the content of an
    existing object whose content file is present, the call returns, the
    metadata files are untouched, [read_blob] by any user in the reader
    list returns exactly the new content, and the content of every other
    id is as before. *)
Theorem update_then_read user blob_id new_content s meta :
  meta_files s !! blob_id = Some meta →
  is_Some (data_files s !! blob_id) →
  user = owner meta →
  ∃ s',
    BlobService.update_blob user blob_id new_content s = (Returned tt, s') ∧
    meta_files s' = meta_files s ∧
    (∀ reader, reader ∈ readable_by meta →
       BlobService.read_blob reader blob_id s' = (Returned new_content, s')) ∧
    (∀ other, other ≠ blob_id → data_files s' !! other = data_files s !! other).
Proof.
  intros Hm [old Hd] Hu.
  rewrite (update_blob_run user blob_id new_content s meta Hm Hu), Hd.
  eexists. split; [reflexivity|]. split_and!; [done| |].
  - intros reader Hin.
    erewrite read_blob_run; [|exact Hm]. simpl.
    by rewrite bool_decide_eq_true_2, lookup_insert_eq.
  - intros other Hne. simpl. by rewrite lookup_insert_ne.
Qed.

Lemma update_then_read_witness :
  meta_files alice_bob_storage !! "id1" = Some alice_bob_meta ∧
  is_Some (data_files alice_bob_storage !! "id1") ∧
  "alice" = owner alice_bob_meta ∧
  ∃ s',
    BlobService.update_blob "alice" "id1" [Byte.x76; Byte.x32] alice_bob_storage
      = (Returned tt, s') ∧
    meta_files s' = meta_files alice_bob_storage ∧
    (∀ reader, reader ∈ readable_by alice_bob_meta →
       BlobService.read_blob reader "id1" s'
       = (Returned [Byte.x76; Byte.x32], s')) ∧
    (∀ other, other ≠ "id1" →
       data_files s' !! other = data_files alice_bob_storage !! other).
Proof.
  assert (is_Some (data_files alice_bob_storage !! "id1")) as Hd
    by (exists hello; reflexivity).
  split; [reflexivity|]. split; [exact Hd|]. split; [reflexivity|].
  apply (update_then_read "alice" "id1" [Byte.x76; Byte.x32] alice_bob_storage
           alice_bob_meta); [reflexivity | exact Hd | reflexivity].
Defined.

(** X17. A metadata file without its content file cannot be repaired or
    removed through the service: for its owner, [update_blob],
    [replace_blob] and [delete_blob] all raise [BlobNotFound] and leave the
    storage as it was, so the metadata stays and [get_meta] still returns
    it to its readers. *)
Theorem orphan_metadata_stays user blob_id new_content s meta :
  meta_files s !! blob_id = Some meta →
  data_files s !! blob_id = None →
  user = owner meta →
  BlobService.update_blob user blob_id new_content s
    = (Raised (BlobNotFound blob_id), s) ∧
  BlobService.replace_blob user blob_id new_content s
    = (Raised (BlobNotFound blob_id), s) ∧
  BlobService.delete_blob user blob_id s
    = (Raised (BlobNotFound blob_id), s) ∧
  ∀ reader, reader ∈ readable_by meta →
    BlobService.get_meta reader blob_id s = (Returned meta, s).
Proof.
  intros Hm Hd Hu. split_and!.
  - by rewrite (update_blob_run user blob_id new_content s meta Hm Hu), Hd.
  - unfold BlobService.replace_blob.
    rewrite (bind_check_owner user blob_id meta _ s Hm Hu).
    unfold svc_bind, call, BlobPersistence.update_content. by rewrite Hd.
  - unfold BlobService.delete_blob.
    rewrite (bind_check_owner user blob_id meta _ s Hm Hu).
    unfold svc_bind, call, BlobPersistence.delete. by rewrite Hd.
  - intros reader Hin. rewrite (get_meta_run reader blob_id s meta Hm).
    by rewrite bool_decide_eq_true_2.
Qed.

Lemma orphan_metadata_stays_witness :
  meta_files orphan_meta_storage !! "id1" = Some alice_meta ∧
  data_files orphan_meta_storage !! "id1" = None ∧
  "alice" = owner alice_meta ∧
  BlobService.delete_blob "alice" "id1" orphan_meta_storage
    = (Raised (BlobNotFound "id1"), orphan_meta_storage).
Proof.
  split; [reflexivity|]. split; [reflexivity|]. split; [reflexivity|].
  apply (orphan_metadata_stays "alice" "id1" hello orphan_meta_storage
           alice_meta); reflexivity.
Defined.

Lemma delete_blob_run user blob_id s :
  BlobService.delete_blob user blob_id s =
  match meta_files s !! blob_id with
  | None =>
      (Raised (absent_error (BlobPersistence._meta blob_id) blob_id), s)
  | Some meta =>
      if bool_decide (user ≠ owner meta)
      then (Raised (Forbidden blob_id user), s)
      else match data_files s !! blob_id with
           | Some _ =>
               (Returned tt,
                mkStorage (base.delete blob_id (data_files s))
                          (base.delete blob_id (meta_files s)))
           | None => (Raised (BlobNotFound blob_id), s)
           end
  end.
Proof.
  unfold BlobService.delete_blob, svc_bind at 1. rewrite check_access_run.
  destruct (meta_files s !! blob_id) as [meta|] eqn:Em; [|done]. simpl.
  case_bool_decide; [done|].
  unfold svc_bind, call, BlobPersistence.delete. rewrite Em.
  by destruct (data_files s !! blob_id).
Qed.

(** X18. [delete_blob] returns exactly when the metadata exists, the user
    is its owner and the content file exists; it then removes both files
    of that id and nothing else.  In every other case it raises and the
    storage is unchanged. *)
Theorem delete_blob_spec user blob_id s :
  let r := BlobService.delete_blob user blob_id s in
  (r.1 = Returned tt
   ↔ ∃ meta, meta_files s !! blob_id = Some meta ∧ user = owner meta ∧
             is_Some (data_files s !! blob_id)) ∧
  (r.1 = Returned tt →
     r.2 = mkStorage (base.delete blob_id (data_files s))
                     (base.delete blob_id (meta_files s))) ∧
  (r.1 ≠ Returned tt → r.2 = s).
Proof.
  simpl. rewrite delete_blob_run.
  destruct (meta_files s !! blob_id) as [meta|] eqn:Em; simpl.
  - case_bool_decide as Hu; simpl.
    + split_and!; [|done..]. split; [done|].
      intros (m & [= <-] & Hu' & _). done.
    + destruct (data_files s !! blob_id) as [d|] eqn:Ed; simpl.
      * split_and!; [|done..]. split; [|done]. intros _. eauto.
      * split_and!; [|done..]. split; [done|].
        by intros (m & _ & _ & []).
  - split_and!; [|done..]. split; [done|]. by intros (m & ? & _).
Qed.

(** ** business.py: listing *)

Lemma list_blobs_loop_run user ids result s :
  (∀ blob_id, blob_id ∈ ids → is_Some (meta_files s !! blob_id)) →
  BlobService.list_blobs_loop user ids result s =
  (Returned
     (result ++
      omap (λ blob_id,
              match meta_files s !! blob_id with
              | Some meta =>
                  if bool_decide (user ∈ readable_by meta)
                  then Some (mkBlobEntry (id meta) (name meta) (owner meta))
                  else None
              | None => None
              end) ids), s).
Proof.
  intros Hids. revert result.
  induction ids as [|blob_id ids IH]; intros result; simpl.
  - by rewrite app_nil_r.
  - destruct (Hids blob_id) as [meta Hm]; [left|].
    assert (∀ k, k ∈ ids → is_Some (meta_files s !! k)) as Hids'
      by (intros k Hk; apply Hids; by right).
    unfold svc_bind at 1. rewrite (read_meta_present blob_id meta s Hm), Hm.
    case_bool_decide; [|by apply IH].
    rewrite IH by done. by rewrite <- app_assoc.
Qed.

Lemma NoDup_entry_ids (f : string → option BlobEntry) ids :
  NoDup ids →
  (∀ k e, f k = Some e → entry_id e = k) →
  NoDup (entry_id <$> omap f ids).
Proof.
  intros Hnd Hf. induction Hnd as [|k ids Hk Hnd IH]; simpl; [constructor|].
  destruct (f k) as [e|] eqn:Ek; [|done].
  rewrite fmap_cons. constructor; [|done].
  rewrite (Hf k e Ek). intros Hin. apply Hk.
  apply list_elem_of_fmap in Hin as (e' & -> & He').
  apply list_elem_of_omap in He' as (k' & Hk' & Hfk').
  by rewrite (Hf k' e' Hfk').
Qed.

(** X19. [list_blobs] always returns and changes nothing.  It lists an
    entry (id, name, owner) for exactly the stored metadata whose reader
    list contains the user, whether or not the content file exists.  When
    the metadata files record their own ids, no id is listed twice and
    [get_meta] by the same user returns for every listed id, with the
    listed name and owner. *)
Theorem list_blobs_spec user s :
  ∃ entries,
    BlobService.list_blobs user s = (Returned entries, s) ∧
    (∀ e, e ∈ entries ↔
       ∃ blob_id meta,
         meta_files s !! blob_id = Some meta ∧ user ∈ readable_by meta ∧
         e = mkBlobEntry (id meta) (name meta) (owner meta)) ∧
    (ids_match s →
       NoDup (entry_id <$> entries) ∧
       ∀ e, e ∈ entries →
         ∃ meta, BlobService.get_meta user (entry_id e) s = (Returned meta, s) ∧
                 name meta = entry_name e ∧ owner meta = entry_owner e).
Proof.
  unfold BlobService.list_blobs, svc_bind at 1. unfold call at 1.
  unfold BlobPersistence.list_ids. rewrite list_blobs_loop_run.
  2:{ intros k ([k' m] & -> & Hin)%list_elem_of_fmap.
      apply elem_of_map_to_list in Hin. by exists m. }
  simpl. eexists. split; [reflexivity|].
  assert (∀ e, e ∈ omap (λ blob_id,
              match meta_files s !! blob_id with
              | Some meta =>
                  if bool_decide (user ∈ readable_by meta)
                  then Some (mkBlobEntry (id meta) (name meta) (owner meta))
                  else None
              | None => None
              end) (map_to_list (meta_files s)).*1 ↔
       ∃ blob_id meta,
         meta_files s !! blob_id = Some meta ∧ user ∈ readable_by meta ∧
         e = mkBlobEntry (id meta) (name meta) (owner meta)) as Hspec.
  { intros e. rewrite list_elem_of_omap. split.
    - intros (k & _ & Hk).
      destruct (meta_files s !! k) as [meta|] eqn:Em; [|done].
      case_bool_decide; [|done]. simplify_eq. eauto.
    - intros (k & meta & Hm & Hin & ->). exists k. split.
      + apply list_elem_of_fmap. exists (k, meta). split; [done|].
        by apply elem_of_map_to_list.
      + by rewrite Hm, bool_decide_eq_true_2. }
  split; [exact Hspec|]. intros Hids. split.
  - apply NoDup_entry_ids; [apply NoDup_fst_map_to_list|].
    intros k e Hk.
    destruct (meta_files s !! k) as [meta|] eqn:Em; [|done].
    case_bool_decide; [|done]. simplify_eq. simpl. by apply (Hids k).
  - intros e (k & meta & Hm & Hin & ->)%Hspec. simpl.
    exists meta. rewrite (Hids k meta Hm).
    rewrite (get_meta_run user k s meta Hm).
    by rewrite bool_decide_eq_true_2.
Qed.

(** ** business.py: the reader set decides who reads *)

(** X20. After [create_blob], whatever was in the storage, [read_blob] on
    the new id returns the content to the creator and to every user in the
    supplied list, and raises [Forbidden] for everybody else; with no list,
    or an empty one, only the creator can read. *)
Theorem create_blob_access `{SetOrder} uuid4 o n c readers extra s user :
  let s' := (BlobService.create_blob uuid4 o n c readers extra s).2 in
  (user = o ∨ user ∈ or_list readers →
     BlobService.read_blob user uuid4 s' = (Returned c, s')) ∧
  (user ≠ o → user ∉ or_list readers →
     BlobService.read_blob user uuid4 s' = (Raised (Forbidden uuid4 user), s')).
Proof.
  cbv zeta. rewrite create_blob_run. simpl.
  set (meta := mkBlobMeta uuid4 n o (list_set (or_list readers ++ [o])) (or_dict extra)).
  set (s' := mkStorage _ _).
  assert (meta_files s' !! uuid4 = Some meta) as Hm by apply lookup_insert_eq.
  assert (user ∈ readable_by meta ↔ user = o ∨ user ∈ or_list readers) as Hin.
  { simpl. rewrite elem_of_list_set, elem_of_app, list_elem_of_singleton.
    split; intros [?|?]; auto. }
  rewrite (read_blob_run user uuid4 s' meta Hm). split.
  - intros Hu. rewrite bool_decide_eq_true_2 by (by apply Hin).
    simpl. by rewrite lookup_insert_eq.
  - intros Hne Hout. rewrite bool_decide_eq_false_2; [done|].
    intros [?|?]%Hin; done.
Qed.

(** X21. Wholesale replacement decides access: after the owner of an
    existing object (stored under its own id, content present) calls
    [set_readable_by] with a list, [read_blob] returns the content to the
    owner and to the users in that list, and raises [Forbidden] for every
    other user, former readers included. *)
Theorem set_readable_by_access `{SetOrder} user blob_id new_list s meta content other :
  meta_files s !! blob_id = Some meta →
  id meta = blob_id →
  data_files s !! blob_id = Some content →
  user = owner meta →
  let s' := (BlobService.set_readable_by user blob_id new_list s).2 in
  (other = owner meta ∨ other ∈ new_list →
     BlobService.read_blob other blob_id s' = (Returned content, s')) ∧
  (other ≠ owner meta → other ∉ new_list →
     BlobService.read_blob other blob_id s'
     = (Raised (Forbidden blob_id other), s')).
Proof.
  intros Hm Hid Hd Hu. subst blob_id. cbv zeta.
  rewrite (set_readable_by_run user (id meta) new_list s meta Hm Hu). simpl.
  set (l := if bool_decide (user ∉ new_list) then new_list ++ [user] else new_list).
  rewrite (update_meta_stored meta (set_meta_readable_by meta (list_set l)) s
             Hm eq_refl). simpl.
  set (s' := mkStorage _ _).
  assert (meta_files s' !! id meta = Some (set_meta_readable_by meta (list_set l)))
    as Hm' by apply lookup_insert_eq.
  assert (other ∈ list_set l ↔ other = owner meta ∨ other ∈ new_list) as Hin.
  { rewrite elem_of_list_set. unfold l. subst user.
    case_bool_decide as Hown.
    - rewrite elem_of_app, list_elem_of_singleton. split; intros [?|?]; auto.
    - split; [by right|]. by intros [->|?]. }
  rewrite (read_blob_run other (id meta) s' _ Hm'). simpl. split.
  - intros Ho. rewrite bool_decide_eq_true_2 by (by apply Hin). by rewrite Hd.
  - intros Hne Hout. rewrite bool_decide_eq_false_2; [done|].
    intros [?|?]%Hin; done.
Qed.

Lemma set_readable_by_access_witness :
  meta_files alice_bob_storage !! "id1" = Some alice_bob_meta ∧
  id alice_bob_meta = "id1" ∧
  data_files alice_bob_storage !! "id1" = Some hello ∧
  "alice" = owner alice_bob_meta ∧
  "bob" ≠ owner alice_bob_meta ∧
  ("bob" ∉ ["carol"]) ∧
  BlobService.read_blob "bob" "id1"
    (BlobService.set_readable_by "alice" "id1" ["carol"] alice_bob_storage).2
  = (Raised (Forbidden "id1" "bob"),
     (BlobService.set_readable_by "alice" "id1" ["carol"] alice_bob_storage).2).
Proof.
  assert ("bob" ∉ ["carol"]) as Hout
    by (apply (bool_decide_unpack _); vm_compute; exact I).
  split; [reflexivity|]. split; [reflexivity|]. split; [reflexivity|].
  split; [reflexivity|]. split; [discriminate|]. split; [exact Hout|].
  destruct (set_readable_by_access "alice" "id1" ["carol"] alice_bob_storage
              alice_bob_meta hello "bob" eq_refl eq_refl eq_refl eq_refl)
    as [_ Hno].
  apply Hno; [discriminate | exact Hout].
Defined.

(** ** auth_mock.py *)

Lemma lstrip_head s :
  lstrip s = EmptyString ∨
  ∃ c t, lstrip s = String c t ∧ isspace c = false.
Proof.
  induction s as [|c s IH]; simpl; [by left|].
  destruct (isspace c) eqn:Ec; [done|]. right. eauto.
Qed.

Lemma rstrip_head c s :
  isspace c = false → ∃ t, rstrip (String c s) = String c t.
Proof.
  intros Ec. simpl. destruct (rstrip s); [|eauto]. rewrite Ec. eauto.
Qed.

Lemma rstrip_rstrip s : rstrip (rstrip s) = rstrip s.
Proof.
  induction s as [|c s IH]; [done|]. simpl.
  destruct (rstrip s) as [|d r] eqn:Er.
  - destruct (isspace c) eqn:Ec; [done|]. simpl. by rewrite Ec.
  - change (rstrip (String c (String d r))) with
      (match rstrip (String d r) with
       | EmptyString => if isspace c then EmptyString else String c EmptyString
       | String a t => String c (String a t)
       end).
    by rewrite IH.
Qed.

Lemma strip_strip s : strip (strip s) = strip s.
Proof.
  unfold strip. destruct (lstrip_head s) as [->|(c & t & -> & Ec)]; [done|].
  destruct (rstrip_head c t Ec) as [r Hr]. rewrite Hr.
  simpl lstrip. rewrite Ec, <- Hr. apply rstrip_rstrip.
Qed.

Lemma resolve_user_inl auth_token x_user user :
  resolve_user auth_token x_user = inl user →
  user = strip (first_truthy auth_token x_user) ∧
  user ≠ EmptyString ∧ has_space user = false ∧ (String.length user ≤ 64)%nat.
Proof.
  unfold resolve_user.
  destruct (strip (first_truthy auth_token x_user)) as [|c t] eqn:Es; [done|].
  destruct (has_space (String c t)) eqn:Esp; [done|].
  destruct (_ <? _)%nat eqn:Elen; [done|].
  simpl. intros [= <-]. split_and!; [done..|].
  by apply Nat.ltb_ge in Elen.
Qed.

(** X22. A name accepted by [resolve_user] is never empty, contains no
    space character, has at most 64 characters and carries no leading or
    trailing whitespace; when no name is accepted the status is 401 or
    400. *)
Theorem resolve_user_result auth_token x_user :
  match resolve_user auth_token x_user with
  | inl user =>
      user ≠ EmptyString ∧ has_space user = false ∧
      (String.length user ≤ 64)%nat ∧ strip user = user
  | inr e => status_code e = 401 ∨ status_code e = 400
  end.
Proof.
  destruct (resolve_user auth_token x_user) as [user|e] eqn:Er.
  - apply resolve_user_inl in Er as (Hu & Hne & Hsp & Hlen).
    split_and!; [done..|]. rewrite Hu. apply strip_strip.
  - revert Er. unfold resolve_user.
    destruct (strip _); [intros [= <-]; by left|].
    destruct (_ || _); [intros [= <-]; by right|done].
Qed.

(** X23. Header precedence: a non-empty AuthToken decides alone, whatever
    X-User holds, so an AuthToken made only of whitespace gives 401 even
    beside a valid X-User; an absent or empty AuthToken leaves the
    decision to X-User. *)
Theorem resolve_user_precedence auth_token x_user :
  auth_token ≠ EmptyString →
  resolve_user (Some auth_token) x_user = resolve_user (Some auth_token) None ∧
  (strip auth_token = EmptyString →
     resolve_user (Some auth_token) x_user
     = inr (mkHTTPException 401 "Unauthorized: missing user header")) ∧
  resolve_user None x_user = resolve_user x_user None ∧
  resolve_user (Some EmptyString) x_user = resolve_user x_user None.
Proof.
  intros Hne. destruct auth_token as [|c t]; [done|]. split_and!.
  - done.
  - intros Hs. unfold resolve_user. simpl first_truthy. by rewrite Hs.
  - unfold resolve_user. by destruct x_user as [[|d u]|].
  - unfold resolve_user. by destruct x_user as [[|d u]|].
Qed.

Lemma resolve_user_precedence_witness :
  "   " ≠ EmptyString ∧
  strip "   " = EmptyString ∧
  resolve_user (Some "bob") None = inl "bob" ∧
  resolve_user (Some "   ") (Some "bob")
  = inr (mkHTTPException 401 "Unauthorized: missing user header").
Proof.
  split; [discriminate|]. split; [reflexivity|]. split; [reflexivity|].
  destruct (resolve_user_precedence "   " (Some "bob")) as (_ & Hblank & _);
    [discriminate|].
  apply Hblank. reflexivity.
Defined.

(** X24. An accepted name is a fixed point: sent back as AuthToken, with
    any X-User beside it, it is accepted unchanged. *)
Theorem resolve_user_idempotent auth_token x_user user x_user' :
  resolve_user auth_token x_user = inl user →
  resolve_user (Some user) x_user' = inl user.
Proof.
  intros Hr.
  apply resolve_user_inl in Hr as (Hu & Hne & Hsp & Hlen).
  assert (strip user = user) as Hfix by (rewrite Hu; apply strip_strip).
  unfold resolve_user.
  destruct user as [|c t]; [done|]. simpl first_truthy. rewrite Hfix, Hsp.
  by rewrite (proj2 (Nat.ltb_ge _ _) Hlen).
Qed.

Lemma resolve_user_idempotent_witness :
  resolve_user (Some " alice ") None = inl "alice" ∧
  resolve_user (Some "alice") (Some "bob") = inl "alice".
Proof.
  split; [reflexivity|].
  apply (resolve_user_idempotent (Some " alice ") None "alice" (Some "bob")).
  reflexivity.
Defined.

(** ** api.py *)

(** X25. [PUT /blob/{blob_id}/readable_by].  Text that is not a JSON list
    gives 400, and text nested too deep for the parser gives 500, on every
    storage and for every user and id: the blob is not looked up.  With a
    list, sent by the owner of an existing object (stored under its own
    id), the answer is the submitted list with the owner appended when it
    was missing: it names the owner and has exactly the elements of the
    reader list that is now stored, although the stored list is
    deduplicated and the answer is not. *)
Theorem api_set_readable_by_answer `{SetOrder} blob_id user s :
  (∃ e, api_set_readable_by blob_id LoadsValueError user s = (HTTPError e, s) ∧
        status_code e = 400) ∧
  (∃ e, api_set_readable_by blob_id LoadsRecursionError user s
        = (HTTPError e, s) ∧
        status_code e = 500) ∧
  (∀ readers meta,
     meta_files s !! blob_id = Some meta →
     id meta = blob_id →
     user = owner meta →
     ∃ s' meta',
       api_set_readable_by blob_id (LoadsList readers) user s
       = (Body (mkUpdatedBody blob_id (readers_after_call user readers)), s') ∧
       meta_files s' !! blob_id = Some meta' ∧
       owner meta' ∈ readers_after_call user readers ∧
       (∀ x, x ∈ readers_after_call user readers ↔ x ∈ readable_by meta') ∧
       (∀ x, x ∈ readers → x ∈ readers_after_call user readers)).
Proof.
  split; [by eexists|]. split; [by eexists|].
  intros readers meta Hm Hid Hu. subst blob_id.
  unfold api_set_readable_by.
  rewrite (set_readable_by_run user (id meta) readers s meta Hm Hu).
  fold (readers_after_call user readers).
  rewrite (update_meta_stored meta
             (set_meta_readable_by meta (list_set (readers_after_call user readers)))
             s Hm eq_refl).
  simpl. do 2 eexists. split; [reflexivity|]. simpl.
  split; [apply lookup_insert_eq|]. simpl. split_and!.
  - subst user. unfold readers_after_call. case_bool_decide as Hin; [|done].
    apply elem_of_app. right. left.
  - intros x. by rewrite elem_of_list_set.
  - intros x Hx. unfold readers_after_call. case_bool_decide; [|done].
    apply elem_of_app. by left.
Qed.

Lemma api_set_readable_by_answer_witness :
  meta_files alice_storage !! "id1" = Some alice_meta ∧
  id alice_meta = "id1" ∧
  "alice" = owner alice_meta ∧
  (api_set_readable_by "id1" (LoadsList ["bob"; "bob"]) "alice" alice_storage).1
  = Body (mkUpdatedBody "id1" ["bob"; "bob"; "alice"]) ∧
  status_code <$>
    match (api_set_readable_by "gone" LoadsValueError "bob" alice_storage).1 with
    | HTTPError e => Some e
    | Body _ => None
    end = Some 400.
Proof.
  split; [reflexivity|]. split; [reflexivity|]. split; [reflexivity|].
  destruct (api_set_readable_by_answer "id1" "alice" alice_storage)
    as (_ & _ & Hlist).
  destruct (Hlist ["bob"; "bob"] alice_meta eq_refl eq_refl eq_refl)
    as (s' & meta' & Hrun & _).
  destruct (api_set_readable_by_answer "gone" "bob" alice_storage)
    as ((e & Hbad & Hcode) & _).
  split.
  - rewrite Hrun. reflexivity.
  - rewrite Hbad. simpl. by rewrite Hcode.
Defined.

(** X26. [PUT /blob] answers with the reader list as submitted (empty when
    the field is absent), not with the stored one: the stored list has the
    submitted users and the owner, so the answer omits the owner whenever
    the submission did.  Text that is not a JSON list gives 400 and nothing
    is stored. *)
Theorem api_create_blob_answer `{SetOrder} uuid4 name file user s :
  (∀ field readers,
     readers = match field with Some l => l | None => [] end →
     ∃ s' meta,
       api_create_blob uuid4 name (Some <$> field) file user s
       = (Body (mkCreatedBody uuid4 user readers), s') ∧
       meta_files s' !! uuid4 = Some meta ∧
       data_files s' !! uuid4 = Some file ∧
       owner meta = user ∧
       ∀ x, x ∈ readable_by meta ↔ x ∈ readers ∨ x = user) ∧
  ∃ e, api_create_blob uuid4 name (Some None) file user s = (HTTPError e, s) ∧
       status_code e = 400.
Proof.
  split; [|by eexists]. intros field readers ->.
  unfold api_create_blob.
  assert (∀ l, ∃ s' meta,
            (let (o, s1) :=
               BlobService.create_blob uuid4 user name file (Some l) None s in
             match o with
             | Returned blob_id => (Body (mkCreatedBody blob_id user l), s1)
             | Raised _ =>
                 (HTTPError (mkHTTPException 500 "Internal Server Error"), s1)
             end) = (Body (mkCreatedBody uuid4 user l), s') ∧
            meta_files s' !! uuid4 = Some meta ∧
            data_files s' !! uuid4 = Some file ∧
            owner meta = user ∧
            ∀ x, x ∈ readable_by meta ↔ x ∈ l ∨ x = user) as Hrun.
  { intros l. rewrite create_blob_run. do 2 eexists.
    split; [reflexivity|]. simpl. rewrite !lookup_insert_eq.
    split_and!; [done..|]. intros x. simpl.
    rewrite elem_of_list_set, elem_of_app, list_elem_of_singleton.
    by destruct l. }
  destruct field as [l|]; simpl; apply Hrun.
Qed.

(** X27. [DELETE /blob/{blob_id}/readable_by]: without a target in the
    query string or the body the answer is 400 and the service is not
    called, whether or not the blob exists; a target in the query string
    is used whatever the body holds; and when the owner names themselves
    the answer is 200 with the owner as removed although the storage is
    unchanged and the owner remains a reader. *)
Theorem api_remove_reader_answer blob_id user s :
  (∀ target_user,
     target_user = None ∨ target_user = Some EmptyString →
     ∃ e, api_remove_reader blob_id target_user user None s = (HTTPError e, s) ∧
          status_code e = 400) ∧
  (∀ c t body,
     api_remove_reader blob_id (Some (String c t)) user body s
     = api_remove_reader blob_id (Some (String c t)) user None s) ∧
  (∀ meta,
     meta_files s !! blob_id = Some meta → user = owner meta →
     user ≠ EmptyString →
     api_remove_reader blob_id (Some user) user None s = (Body user, s)).
Proof.
  split_and!.
  - intros target_user [-> | ->]; by eexists.
  - done.
  - intros meta Hm Hu Hne. unfold api_remove_reader.
    destruct user as [|c t] eqn:Euser; [done|]. rewrite <- Euser in *.
    unfold http_errors, svc_bind.
    rewrite (remove_reader_run user blob_id user s meta Hm Hu).
    rewrite (bool_decide_eq_false_2 (user ≠ owner meta)) by auto.
    by rewrite andb_false_r.
Qed.

Lemma api_remove_reader_answer_witness :
  meta_files alice_storage !! "id1" = Some alice_meta ∧
  "alice" = owner alice_meta ∧
  api_remove_reader "id1" (Some "alice") "alice" None alice_storage
  = (Body "alice", alice_storage) ∧
  BlobService.read_blob "alice" "id1" alice_storage
  = (Returned hello, alice_storage).
Proof.
  split; [reflexivity|]. split; [reflexivity|]. split; [|reflexivity].
  destruct (api_remove_reader_answer "id1" "alice" alice_storage)
    as (_ & _ & Howner).
  apply (Howner alice_meta); [reflexivity | reflexivity | discriminate].
Defined.
